(** * Password strength checker (main.py): a shallow embedding

    The four heuristics of [PasswordStrengthChecker], the handlers of
    [AppWindow] (the display of the scores, show/hide, copy), the
    decorator [store_control] and the shim [color_with_opacity], embedded
    as Rocq functions, followed by the properties the specification states
    about them and by further properties read off the code.

    Conventions.
    - A Python [str] is a sequence of Unicode code points: [pystr] is a
      list of [N].
    - Python integers are [Z].
    - Code that can raise returns a [result]; code built only from
      operations that cannot raise ([len], [set], [any], [dict.get],
      slicing, [str.isdigit] and friends) is a plain function.
    - A Python [set] is a [gset], a [dict] a [gmap].  The order in which a
      [set] is iterated is not fixed by the language, so the loop bodies
      that iterate over one take the iteration sequence as an argument. *)

From Stdlib Require Import ZArith NArith List String Ascii Bool Lia.
From stdpp Require Import gmap strings.

Local Open Scope Z_scope.

(** ** Python values *)

Module Py.

(** A character is a code point (a number up to U+10FFFF; the bound plays
    no part below). *)
Definition char : Type := N.
Definition pystr : Type := list char.

(** An ASCII literal, as the code points of its characters. *)
Definition str (s : string) : pystr :=
  map N_of_ascii (list_ascii_of_string s).

Inductive exn : Type :=
| IndexError.

Inductive result (A : Type) : Type :=
| Ok (a : A)
| Raise (e : exn).
Arguments Ok {A} a.
Arguments Raise {A} e.

Definition bind {A B} (r : result A) (k : A -> result B) : result B :=
  match r with
  | Ok a => k a
  | Raise e => Raise e
  end.

(** [len(p)] *)
Definition len {A} (p : list A) : Z := Z.of_nat (length p).

(** The position a subscript [i] denotes in a sequence of length [n]:
    a negative index counts from the end. *)
Definition position (n i : Z) : Z := if i <? 0 then i + n else i.

(** [p[i]]: an index outside the sequence raises [IndexError]. *)
Definition getitem {A} (p : list A) (i : Z) : result A :=
  let j := position (len p) i in
  if (j <? 0) || (len p <=? j) then Raise IndexError
  else match p !! Z.to_nat j with
       | Some c => Ok c
       | None => Raise IndexError
       end.

(** One bound of a slice: negative bounds count from the end, and the
    result is clamped to [0, len]. *)
Definition clamp (n : Z) (i : Z) : Z :=
  let j := position n i in
  if j <? 0 then 0 else if n <? j then n else j.

(** [p[lo:hi]]; never raises. *)
Definition slice (p : pystr) (lo hi : Z) : pystr :=
  let a := clamp (len p) lo in
  let b := clamp (len p) hi in
  take (Z.to_nat (b - a)) (drop (Z.to_nat a) p).

(** [range(n)], empty when [n <= 0]. *)
Definition range (n : Z) : list Z :=
  map Z.of_nat (seq 0 (Z.to_nat n)).

(** [set(p)] *)
Definition set (p : pystr) : gset char := list_to_set p.

(** [any(f(c) for c in chars)] over an iteration sequence. *)
Definition any {A} (f : A -> bool) (chars : list A) : bool := existsb f chars.

(** [l] is a sequence in which the elements of the set [s] may be
    produced by iterating over it: each element once, in some order. *)
Definition iteration_of (s : gset char) (l : list char) : Prop :=
  NoDup l /\ forall c, c ∈ l <-> c ∈ s.

(** *** The Unicode character database

    [str.isdigit], [str.islower] and [str.isupper] consult the
    interpreter's character database.  The database is not part of the
    program and changes with the interpreter's Unicode version, so it is
    a parameter; what is fixed in every version is its ASCII part. *)
Record UnicodeData : Type := {
  ISLOWER : char -> bool;
  ISUPPER : char -> bool;
  ISTITLE : char -> bool;
  ISDIGIT : char -> bool;
  ascii_ISLOWER : forall c, (c < 128)%N ->
    ISLOWER c = ((97 <=? c) && (c <=? 122))%N;
  ascii_ISUPPER : forall c, (c < 128)%N ->
    ISUPPER c = ((65 <=? c) && (c <=? 90))%N;
  ascii_ISTITLE : forall c, (c < 128)%N -> ISTITLE c = false;
  ascii_ISDIGIT : forall c, (c < 128)%N ->
    ISDIGIT c = ((48 <=? c) && (c <=? 57))%N
}.

(** The characters below U+0080. *)
Definition is_ascii (c : char) : Prop := (c < 128)%N.

Section StrMethods.
Context (ucd : UnicodeData).

(** [s.isdigit()]: every character is a digit and there is at least
    one character. *)
Definition isdigit (s : pystr) : bool :=
  match s with
  | [] => false
  | _ => forallb (ISDIGIT ucd) s
  end.

(** The loop of [s.islower()]: an uppercase or titlecase character
    answers [False] at once; otherwise remember whether a lowercase
    character was seen. *)
Fixpoint islower_from (cased : bool) (s : pystr) : bool :=
  match s with
  | [] => cased
  | ch :: rest =>
      if ISUPPER ucd ch || ISTITLE ucd ch then false
      else if negb cased && ISLOWER ucd ch then islower_from true rest
      else islower_from cased rest
  end.

(** [s.islower()]: all cased characters are lowercase and there is at
    least one cased character.  (The interpreter answers a string of one
    character from [ISLOWER] alone; the chunks [sequential_check] tests
    have three characters.) *)
Definition islower (s : pystr) : bool := islower_from false s.

Fixpoint isupper_from (cased : bool) (s : pystr) : bool :=
  match s with
  | [] => cased
  | ch :: rest =>
      if ISLOWER ucd ch || ISTITLE ucd ch then false
      else if negb cased && ISUPPER ucd ch then isupper_from true rest
      else isupper_from cased rest
  end.

(** [s.isupper()]: all cased characters are uppercase and there is at
    least one cased character. *)
Definition isupper (s : pystr) : bool := isupper_from false s.
End StrMethods.

(** The database in which no character outside ASCII is cased or a
    digit: the least one the interface admits. *)
Definition ascii_lower (c : char) : bool := ((97 <=? c) && (c <=? 122))%N.
Definition ascii_upper (c : char) : bool := ((65 <=? c) && (c <=? 90))%N.
Definition ascii_digit (c : char) : bool := ((48 <=? c) && (c <=? 57))%N.

Definition ascii_ucd : UnicodeData :=
  {| ISLOWER := ascii_lower;
     ISUPPER := ascii_upper;
     ISTITLE := fun _ => false;
     ISDIGIT := ascii_digit;
     ascii_ISLOWER := fun _ _ => eq_refl;
     ascii_ISUPPER := fun _ _ => eq_refl;
     ascii_ISTITLE := fun _ _ => eq_refl;
     ascii_ISDIGIT := fun _ _ => eq_refl |}.

End Py.

#[global] Instance result_ret : MRet Py.result := @Py.Ok.
#[global] Instance result_bind : MBind Py.result :=
  fun A B k r => Py.bind r k.

(** ** class PasswordStrengthChecker *)

Module PasswordStrengthChecker.
Import Py.

Record t : Type := { password : pystr }.

(** [self.password = password or <empty string>]: [None] and the empty
    string both give the empty string. *)
Definition __init__ (password : option pystr) : t :=
  {| password := match password with
                 | None => []
                 | Some [] => []
                 | Some p => p
                 end |}.

Definition length_check (self : t) : Z :=
  let n := len (password self) in
  if (0 <? n) && (n <? 8) then 0
  else if (8 <=? n) && (n <? 12) then 1
  else if (12 <=? n) && (n <? 16) then 2
  else if 16 <=? n then 3
  else 0.

Definition lower : gset char := set (str "abcdefghijklmnopqrstuvwxyz").
Definition upper : gset char := set (str "ABCDEFGHIJKLMNOPQRSTUVWXYZ").
Definition digits : gset char := set (str "0123456789").
(** The five characters of the literal that are outside ASCII are
    U+00FE, U+02BC, U+00AB, U+00E6 and U+2026. *)
Definition special : gset char :=
  set (str "~`!@#$%^&*()-_" ++ [254; 700; 171; 230; 8230]%N
       ++ str "+={}[]|/\:;`><.?").

Definition score_table : gmap Z Z :=
  list_to_map [(1, 0); (2, 1); (3, 2); (4, 3)].

(** The body of [character_check] after [chars = set(self.password)],
    for a given iteration sequence of [chars]. *)
Definition character_check_on (chars : list char) : Z :=
  let score := 0 in
  let score := if any (fun c => bool_decide (c ∈ lower)) chars
               then score + 1 else score in
  let score := if any (fun c => bool_decide (c ∈ upper)) chars
               then score + 1 else score in
  let score := if any (fun c => bool_decide (c ∈ digits)) chars
               then score + 1 else score in
  let score := if any (fun c => bool_decide (c ∈ special)) chars
               then score + 1 else score in
  default 0 (score_table !! score).

Definition character_check (self : t) : Z :=
  character_check_on (elements (set (password self))).

(** The [for] loop of [repeat_check].  The chained comparison
    [p[i] == p[i + 1] == p[i + 2]] reads [p[i + 2]] only when the first
    two characters are equal. *)
Fixpoint repeat_loop (p : pystr) (indices : list Z) : result Z :=
  match indices with
  | [] => Ok 1
  | i :: rest =>
      a ← getitem p i;
      b ← getitem p (i + 1);
      if (a =? b)%N then
        c ← getitem p (i + 2);
        if (b =? c)%N then Ok 0 else repeat_loop p rest
      else repeat_loop p rest
  end.

Definition repeat_check (self : t) : result Z :=
  let p := password self in
  match p with
  | [] => Ok 2
  | _ => repeat_loop p (range (len p - 2))
  end.

Section Sequential.
Context (ucd : UnicodeData).

(** The condition of the [if] in the loop of [sequential_check]:
    [chunk.isdigit() or chunk.islower() or chunk.isupper()]. *)
Definition flagged (chunk : pystr) : bool :=
  isdigit ucd chunk || islower ucd chunk || isupper ucd chunk.

Fixpoint sequential_loop (p : pystr) (indices : list Z) : Z :=
  match indices with
  | [] => 1
  | i :: rest =>
      let chunk := slice p i (i + 3) in
      if flagged chunk then 0 else sequential_loop p rest
  end.

Definition sequential_check (self : t) : Z :=
  let p := password self in
  match p with
  | [] => 2
  | _ => sequential_loop p (range (len p - 2))
  end.
End Sequential.

End PasswordStrengthChecker.

(** ** class AppWindow: the handlers that display the scores *)

Module AppWindow.
Import Py.

Inductive color : Type :=
| TRANSPARENT | RED | YELLOW | GREEN_400 | GREEN_900.

(** The progress bar of a criteria row
    ([CONTROLS[k].controls[1].controls[0]]). *)
Record bar : Type :=
  { bgcolor : color; width : Z; opacity : Z }.

(** The tick box of a status row ([STATUS[k].controls[0]]); [value] is
    the value of the check box it contains. *)
Record box : Type :=
  { box_opacity : Z; value : option bool }.

(** The two module-level lists.  The handlers mutate the widgets the
    lists refer to, so an update is an update of the list entry. *)
Record widgets : Type :=
  { CONTROLS : list bar; STATUS : list box }.

(** The lists as [password_strength_display] leaves them: four criteria
    rows and four status rows. *)
Definition initial : widgets :=
  {| CONTROLS := replicate 4 {| bgcolor := TRANSPARENT; width := 0; opacity := 0 |};
     STATUS := replicate 4 {| box_opacity := 0; value := None |} |}.

Definition store {A} (l : list A) (i : Z) (x : A) : list A :=
  <[Z.to_nat (position (len l) i) := x]> l.

Definition criteria_satisfied (index status : Z) (w : widgets)
  : result widgets :=
  if len (STATUS w) <=? index then Ok w
  else
    _ ← getitem (STATUS w) index;
    let ticked :=
      if status =? 3 then {| box_opacity := 1; value := Some true |}
      else {| box_opacity := 0; value := Some false |} in
    Ok {| CONTROLS := CONTROLS w; STATUS := store (STATUS w) index ticked |}.

(** The colour and width chosen by [password_length_status] and
    [character_check_status]. *)
Definition four_level (strength : Z) (b : bar) : bar :=
  let b :=
    if strength =? 0 then {| bgcolor := RED; width := 40; opacity := opacity b |}
    else if strength =? 1 then {| bgcolor := YELLOW; width := 70; opacity := opacity b |}
    else if strength =? 2 then {| bgcolor := GREEN_400; width := 100; opacity := opacity b |}
    else if strength =? 3 then {| bgcolor := GREEN_900; width := 130; opacity := opacity b |}
    else {| bgcolor := bgcolor b; width := 0; opacity := opacity b |} in
  {| bgcolor := bgcolor b; width := width b; opacity := 1 |}.

(** The colour and width chosen by [repeat_check_status] and
    [sequential_check_status]. *)
Definition two_level (strength : Z) (b : bar) : bar :=
  let b :=
    if strength =? 0 then {| bgcolor := RED; width := 65; opacity := opacity b |}
    else if strength =? 1 then {| bgcolor := GREEN_900; width := 130; opacity := opacity b |}
    else {| bgcolor := bgcolor b; width := 0; opacity := opacity b |} in
  {| bgcolor := bgcolor b; width := width b; opacity := 1 |}.

Definition set_bar (k : Z) (paint : bar -> bar) (w : widgets)
  : result widgets :=
  b ← getitem (CONTROLS w) k;
  Ok {| CONTROLS := store (CONTROLS w) k (paint b); STATUS := STATUS w |}.

Definition password_length_status (strength : Z) (w : widgets)
  : result widgets :=
  if len (CONTROLS w) =? 0 then Ok w
  else
    w ← set_bar 0 (four_level strength) w;
    criteria_satisfied 0 strength w.

Definition character_check_status (strength : Z) (w : widgets)
  : result widgets :=
  if len (CONTROLS w) <? 2 then Ok w
  else
    w ← set_bar 1 (four_level strength) w;
    criteria_satisfied 1 strength w.

Definition repeat_check_status (strength : Z) (w : widgets)
  : result widgets :=
  if len (CONTROLS w) <? 3 then Ok w
  else
    w ← set_bar 2 (two_level strength) w;
    criteria_satisfied 2 (if strength =? 1 then 3 else strength) w.

Definition sequential_check_status (strength : Z) (w : widgets)
  : result widgets :=
  if len (CONTROLS w) <? 4 then Ok w
  else
    w ← set_bar 3 (two_level strength) w;
    criteria_satisfied 3 (if strength =? 1 then 3 else strength) w.

(** [check_password]; [data] is the text of the change event. *)
Definition check_password (ucd : UnicodeData) (data : option pystr)
    (w : widgets) : result widgets :=
  let checker :=
    PasswordStrengthChecker.__init__
      (Some (match data with
             | None => []
             | Some [] => []
             | Some p => p
             end)) in
  w ← password_length_status (PasswordStrengthChecker.length_check checker) w;
  w ← character_check_status (PasswordStrengthChecker.character_check checker) w;
  r ← PasswordStrengthChecker.repeat_check checker;
  w ← repeat_check_status r w;
  sequential_check_status (PasswordStrengthChecker.sequential_check ucd checker) w.

End AppWindow.

(** ** The decorator [store_control] and the rows it collects

    [CONTROLS] and [STATUS] are filled while the window is built: every
    call of a decorated builder appends the row it returns to one of the
    two lists.  Here a list may hold either kind of row, as in the code;
    [view] below is the reading of the lists that the handlers of
    [AppWindow] rely on. *)

Module Registry.
Import Py.

Inductive row : Type :=
| CriteriaRow (b : AppWindow.bar)
| StatusRow (x : AppWindow.box).

Record lists : Type :=
  { CONTROLS : list row; STATUS : list row }.

(** The wrapper returned by [store_control(function)], called with the
    keyword arguments [kwargs]. *)
Definition store_control (function : gmap string Z -> row)
    (kwargs : gmap string Z) (g : lists) : row * lists :=
  let reference := function kwargs in
  if default 0 (kwargs !! "control"%string) =? 0
  then (reference,
        {| CONTROLS := CONTROLS g ++ [reference]; STATUS := STATUS g |})
  else (reference,
        {| CONTROLS := CONTROLS g; STATUS := STATUS g ++ [reference] |}).

(** The row built by the body of [check_criteria_display]: its bar starts
    transparent, of width 0. *)
Definition criteria_row (kwargs : gmap string Z) : row :=
  CriteriaRow {| AppWindow.bgcolor := AppWindow.TRANSPARENT;
                 AppWindow.width := 0;
                 AppWindow.opacity := 0 |}.

(** The row built by the body of [check_status_display]: its box starts
    hidden. *)
Definition status_row (kwargs : gmap string Z) : row :=
  StatusRow {| AppWindow.box_opacity := 0; AppWindow.value := None |}.

Definition check_criteria_display : gmap string Z -> lists -> row * lists :=
  store_control criteria_row.

Definition check_status_display : gmap string Z -> lists -> row * lists :=
  store_control status_row.

(** The registrations made by [password_strength_display], in the order
    in which the list of controls is evaluated. *)
Definition password_strength_display (g : lists) : lists :=
  let criteria := check_criteria_display {[ "control"%string := 0 ]} in
  let status := check_status_display {[ "control"%string := 1 ]} in
  let g := (criteria g).2 in
  let g := (status g).2 in
  let g := (criteria g).2 in
  let g := (status g).2 in
  let g := (criteria g).2 in
  let g := (status g).2 in
  let g := (criteria g).2 in
  (status g).2.

(** The lists when the module is loaded. *)
Definition empty : lists := {| CONTROLS := []; STATUS := [] |}.

(** The bar reached by [row.controls[1].controls[0]]: a status row has a
    single control, so it has none. *)
Definition bar_of (r : row) : option AppWindow.bar :=
  match r with
  | CriteriaRow b => Some b
  | StatusRow _ => None
  end.

(** The box with a check box as [content] reached by [row.controls[0]]:
    the first control of a criteria row is a column of texts. *)
Definition box_of (r : row) : option AppWindow.box :=
  match r with
  | StatusRow x => Some x
  | CriteriaRow _ => None
  end.

(** The two lists as the handlers read them, when every row of
    [CONTROLS] is a criteria row and every row of [STATUS] a status
    row. *)
Definition view (g : lists) : option AppWindow.widgets :=
  bars ← mapM bar_of (CONTROLS g);
  boxes ← mapM box_of (STATUS g);
  Some {| AppWindow.CONTROLS := bars; AppWindow.STATUS := boxes |}.

End Registry.

(** ** The show/hide and copy handlers of [AppWindow] *)

Module Handlers.
Import Py.


(** The text field: [masked] is its [password] attribute. *)
Record text_field : Type :=
  { masked : bool; value : option pystr }.

Inductive control : Type :=
| Text (value : string)
| OtherControl.

Inductive green : Type :=
| GREEN_400 | GREEN.

(** A snack bar; [content] is [None] when the object has no such
    attribute. *)
Record snack_bar : Type :=
  { content : option control; bgcolor : option green; open : bool }.

(** The page.  A clipboard method that is present is called with the
    text and the current clipboard and either returns the new clipboard
    or raises ([None]).  [update] has no effect on the attributes kept
    here. *)
Record page : Type :=
  { set_clipboard : option (pystr -> pystr -> option pystr);
    copy_to_clipboard : option (pystr -> pystr -> option pystr);
    the_snack_bar : option snack_bar;
    clipboard : pystr }.

(** The attributes of the window the two handlers use. *)
Record window : Type :=
  { show_password : bool;
    password_field : option text_field;
    the_page : option page }.


Definition message : string := "Password copied to clipboard".

(** The [try] block of [copy_password]: [set_clipboard] when callable,
    otherwise [copy_to_clipboard] when callable; an exception leaves the
    clipboard as it was and is dropped. *)
Definition try_copy (p : page) (text : pystr) : pystr :=
  match set_clipboard p with
  | Some set_clip => default (clipboard p) (set_clip text (clipboard p))
  | None =>
      match copy_to_clipboard p with
      | Some copy_fn => default (clipboard p) (copy_fn text (clipboard p))
      | None => clipboard p
      end
  end.

(** [getattr(COLORS, "GREEN_400", None) or getattr(COLORS, "GREEN", None)]
    for a colour table that has the first, only the second, or neither. *)
Definition confirm_color (has_400 has_green : bool) : option green :=
  if has_400 then Some GREEN_400
  else if has_green then Some GREEN else None.

(** [copy_password(self, e)] *)
Definition copy_password (has_400 has_green : bool) (self : window)
  : window :=
  match password_field self, the_page self with
  | Some field, Some p =>
      let text := match value field with
                  | None => []
                  | Some [] => []
                  | Some v => v
                  end in
      let clip := try_copy p text in
      let bar :=
        match the_snack_bar p with
        | Some {| content := Some (Text _); bgcolor := _; open := _ |}
        | Some {| content := Some OtherControl; bgcolor := _; open := _ |} =>
            {| content := Some (Text message);
               bgcolor := confirm_color has_400 has_green;
               open := true |}
        | _ =>
            {| content := Some (Text message); bgcolor := None;
               open := true |}
        end in
      {| show_password := show_password self;
         password_field := password_field self;
         the_page :=
           Some {| set_clipboard := set_clipboard p;
                   copy_to_clipboard := copy_to_clipboard p;
                   the_snack_bar := Some bar;
                   clipboard := clip |} |}
  | _, _ => self
  end.

End Handlers.

(** ** The compatibility shim [color_with_opacity] *)

Module Shim.

(** What a call of [COLORS.with_opacity] does: it returns a value, raises
    [TypeError], or raises something else. *)
Inductive outcome (V : Type) : Type :=
| Return (v : V)
| RaiseTypeError
| RaiseOther.
Arguments Return {V} v.
Arguments RaiseTypeError {V}.
Arguments RaiseOther {V}.

Section ColorWithOpacity.
(** The values passed around: colours and opacities are arguments of one
    dynamic type. *)
Context {V : Type}.

(** [fn] is [getattr(COLORS, "with_opacity", None)]. *)
Definition color_with_opacity (fn : option (V -> V -> outcome V))
    (color opacity : V) : outcome V :=
  match fn with
  | None => Return color
  | Some fn =>
      match fn opacity color with
      | RaiseTypeError =>
          match fn color opacity with
          | RaiseTypeError => Return color
          | other => other
          end
      | other => other
      end
  end.
End ColorWithOpacity.

End Shim.

(** ** What the sequential check looks for in a window *)

Module Runs.
Import Py.

Section WithDatabase.
Context (ucd : UnicodeData).

(** No character of the window is uppercase or titlecase. *)
Definition no_upper (w : pystr) : Prop :=
  Forall (fun c => ISUPPER ucd c = false /\ ISTITLE ucd c = false) w.

(** No character of the window is lowercase or titlecase. *)
Definition no_lower (w : pystr) : Prop :=
  Forall (fun c => ISLOWER ucd c = false /\ ISTITLE ucd c = false) w.

Definition some_lower (w : pystr) : Prop :=
  Exists (fun c => ISLOWER ucd c = true) w.

Definition some_upper (w : pystr) : Prop :=
  Exists (fun c => ISUPPER ucd c = true) w.

Definition all_digits (w : pystr) : Prop :=
  Forall (fun c => ISDIGIT ucd c = true) w.

(** The windows [sequential_check] stops at: three digits; or a lowercase
    character and nothing uppercase or titlecase; or an uppercase
    character and nothing lowercase or titlecase.  Characters without
    case are free in the last two. *)
Definition caught (w : pystr) : Prop :=
  all_digits w \/ (some_lower w /\ no_upper w) \/ (some_upper w /\ no_lower w).
End WithDatabase.

(** An ASCII letter or digit. *)
Definition ascii_alnum (c : char) : bool :=
  ascii_lower c || ascii_upper c || ascii_digit c.

End Runs.

(** ** What a handler leaves on the screen *)

Module Shown.
Import Py.

(** The tick box after [criteria_satisfied] was given [status]. *)
Definition tick_for (status : Z) : AppWindow.box :=
  if status =? 3
  then {| AppWindow.box_opacity := 1; AppWindow.value := Some true |}
  else {| AppWindow.box_opacity := 0; AppWindow.value := Some false |}.

(** Row [k] repainted and its box set, when the row exists. *)
Definition updated (k : nat) (paint : AppWindow.bar -> AppWindow.bar)
    (status : Z) (w : AppWindow.widgets) : AppWindow.widgets :=
  if decide (k < length (AppWindow.CONTROLS w))%nat
  then {| AppWindow.CONTROLS := alter paint k (AppWindow.CONTROLS w);
          AppWindow.STATUS := <[k := tick_for status]> (AppWindow.STATUS w) |}
  else w.

(** The status the repeat and sequential handlers pass on. *)
Definition passed (strength : Z) : Z := if strength =? 1 then 3 else strength.


(** A password that earns all four ticks. *)
Definition all_ticks : pystr := str "aA1aA!aA1aA!aA1aA!".

End Shown.

(** ** The specification's vocabulary

    Definitions that follow the words of the specification, to state what
    it says about the functions above. *)

Module Spec.
Import Py.

(** The substrings of length 3, left to right (sliding window, stride
    1). *)
Fixpoint windows (p : pystr) : list pystr :=
  match p with
  | a :: rest =>
      match rest with
      | b :: c :: _ => [a; b; c] :: windows rest
      | _ => []
      end
  | [] => []
  end.

(** [w] is a substring of [p] of length 3. *)
Definition substring3 (p w : pystr) : Prop :=
  length w = 3%nat /\ exists before after, p = before ++ w ++ after.

(** All three characters of a window are identical. *)
Definition identical (w : pystr) : bool :=
  match w with
  | [a; b; c] => (a =? b)%N && (b =? c)%N
  | _ => false
  end.

(** Some substring of length 3 has all three characters identical. *)
Definition triple_repeat (p : pystr) : Prop :=
  exists before c after, p = before ++ [c; c; c] ++ after.

(** The characters of a window are all digits, all lowercase letters or
    all uppercase letters. *)
Definition same_class (ucd : UnicodeData) (w : pystr) : bool :=
  forallb (ISDIGIT ucd) w || forallb (ISLOWER ucd) w
  || forallb (ISUPPER ucd) w.

(** The sequential check as the specification words it. *)
Definition evaluate_sequential_runs (ucd : UnicodeData) (p : pystr) : Z :=
  match p with
  | [] => 2
  | _ => if existsb (same_class ucd) (windows p) then 0 else 1
  end.

(** A class has at least one member present in the password. *)
Definition present (class : gset char) (p : pystr) : Prop :=
  Exists (fun c => c ∈ class) p.

#[global] Instance present_dec class p : Decision (present class p).
Proof. unfold present. apply _. Defined.

(** How many of the four classes are present. *)
Definition class_count (p : pystr) : Z :=
  len (filter (fun class => present class p)
         [PasswordStrengthChecker.lower; PasswordStrengthChecker.upper;
          PasswordStrengthChecker.digits; PasswordStrengthChecker.special]).

(** The four scores of one evaluation. *)
Definition scores (ucd : UnicodeData) (self : PasswordStrengthChecker.t)
  : result (Z * Z * Z * Z) :=
  r ← PasswordStrengthChecker.repeat_check self;
  Ok (PasswordStrengthChecker.length_check self,
      PasswordStrengthChecker.character_check self,
      r,
      PasswordStrengthChecker.sequential_check ucd self).

(** The checker for an ASCII literal. *)
Definition checker (s : string) : PasswordStrengthChecker.t :=
  PasswordStrengthChecker.__init__ (Some (str s)).

End Spec.

(** * Properties *)

(** ** Subscripts, slices and ranges *)

Section PyFacts.
Import Py.

Lemma getitem_lookup {A} (p : list A) (i : nat) (a : A) :
  p !! i = Some a -> getitem p (Z.of_nat i) = Ok a.
Proof.
  intros Hi. pose proof (lookup_lt_Some _ _ _ Hi) as Hlt.
  unfold getitem, position, len.
  destruct (Z.ltb_spec (Z.of_nat i) 0) as [Hneg | _]; [lia |].
  destruct (Z.ltb_spec (Z.of_nat i) 0) as [Hneg | _]; [lia |].
  destruct (Z.leb_spec (Z.of_nat (length p)) (Z.of_nat i)) as [Hge | _];
    [lia |].
  cbn. rewrite Nat2Z.id, Hi. reflexivity.
Qed.

Lemma getitem_middle {A} (before : list A) (a : A) (after : list A) :
  getitem (before ++ a :: after) (Z.of_nat (length before)) = Ok a.
Proof. apply getitem_lookup, list_lookup_middle. reflexivity. Qed.

Lemma clamp_inside (n i : Z) : 0 <= i <= n -> clamp n i = i.
Proof.
  intros Hi. unfold clamp, position.
  destruct (Z.ltb_spec i 0); [lia |].
  destruct (Z.ltb_spec i 0); [lia |].
  destruct (Z.ltb_spec n i); lia.
Qed.

Lemma slice_window (before : pystr) (a b c : char) (after : pystr) :
  let i := Z.of_nat (length before) in
  slice (before ++ a :: b :: c :: after) i (i + 3) = [a; b; c].
Proof.
  intros i. unfold slice.
  assert (Hlen : len (before ++ a :: b :: c :: after)
                 = i + 3 + Z.of_nat (length after)).
  { unfold len, i. rewrite length_app. cbn [length]. lia. }
  rewrite !clamp_inside by lia.
  replace (Z.to_nat (i + 3 - i)) with 3%nat by lia.
  unfold i. rewrite Nat2Z.id, drop_app_length. reflexivity.
Qed.

Lemma range_seq (n : nat) : range (Z.of_nat n) = map Z.of_nat (seq 0 n).
Proof. unfold range. rewrite Nat2Z.id. reflexivity. Qed.

Lemma range_small (n : Z) : n <= 0 -> range n = [].
Proof.
  intros Hn. unfold range. replace (Z.to_nat n) with 0%nat by lia.
  reflexivity.
Qed.

(** The iteration order the model picks for a set is one of the
    admissible ones. *)
Lemma elements_iteration (p : pystr) : iteration_of (set p) (elements (set p)).
Proof.
  split; [apply NoDup_elements |].
  intros c. apply elem_of_elements.
Qed.

(** [any] over an iteration of [set(p)] sees exactly the characters of
    [p]. *)
Lemma any_iteration (class : gset char) (p : pystr) (l : list char) :
  iteration_of (set p) l ->
  any (fun c => bool_decide (c ∈ class)) l
  = bool_decide (Spec.present class p).
Proof.
  intros [_ Hl]. unfold any, Spec.present.
  destruct (existsb _ l) eqn:He.
  - symmetry. apply bool_decide_eq_true.
    apply existsb_exists in He as (c & Hc & Hin).
    apply bool_decide_eq_true in Hin.
    apply Exists_exists. exists c. split; [| exact Hin].
    apply list_elem_of_In in Hc. apply Hl in Hc.
    unfold set in Hc. apply elem_of_list_to_set in Hc. exact Hc.
  - symmetry. apply bool_decide_eq_false. intros Hex.
    apply Exists_exists in Hex as (c & Hc & Hin).
    assert (Hc' : c ∈ l).
    { apply Hl. unfold set. apply elem_of_list_to_set. exact Hc. }
    apply not_true_iff_false in He. apply He.
    apply existsb_exists. exists c. split.
    + apply list_elem_of_In. exact Hc'.
    + apply bool_decide_eq_true. exact Hin.
Qed.
End PyFacts.

(** ** The two scanning loops visit the windows *)

Section Loops.
Import Py PasswordStrengthChecker.

Lemma getitem_offset {A} (before : list A) (rest : list A) (k : nat) (x : A) :
  rest !! k = Some x ->
  getitem (before ++ rest) (Z.of_nat (length before) + Z.of_nat k) = Ok x.
Proof.
  intros Hk. rewrite <- Nat2Z.inj_add. apply getitem_lookup.
  rewrite lookup_app_r by lia.
  replace (length before + k - length before)%nat with k by lia.
  exact Hk.
Qed.

Lemma seq_window (k : nat) (a b c : Py.char) (rest : pystr) :
  seq k (length (a :: b :: c :: rest) - 2)
  = k :: seq (S k) (length (b :: c :: rest) - 2).
Proof.
  cbn [length].
  replace (S (S (S (length rest))) - 2)%nat with (S (length rest)) by lia.
  replace (S (S (length rest)) - 2)%nat with (length rest) by lia.
  reflexivity.
Qed.

Lemma app_cons_shift {A} (before : list A) (a : A) (rest : list A) :
  before ++ a :: rest = (before ++ [a]) ++ rest
  /\ S (length before) = length (before ++ [a]).
Proof. rewrite <- app_assoc, length_app. cbn. split; [reflexivity | lia]. Qed.

(** Started at the position where [q] begins, the loop of [repeat_check]
    never raises, and it answers 0 exactly when one of the windows of [q]
    holds three identical characters. *)
Lemma repeat_loop_windows (q before : pystr) :
  repeat_loop (before ++ q)
    (map Z.of_nat (seq (length before) (length q - 2)))
  = Ok (if existsb Spec.identical (Spec.windows q) then 0 else 1).
Proof.
  revert before. induction q as [| a q IH]; intros before; [reflexivity |].
  destruct q as [| b [| c rest]]; [reflexivity | reflexivity |].
  rewrite seq_window. cbn [map repeat_loop].
  set (p := before ++ a :: b :: c :: rest).
  set (i := Z.of_nat (length before)).
  assert (Ha : getitem p i = Ok a) by apply getitem_middle.
  assert (Hb : getitem p (i + 1) = Ok b)
    by exact (getitem_offset before (a :: b :: c :: rest) 1 b eq_refl).
  assert (Hc : getitem p (i + 2) = Ok c)
    by exact (getitem_offset before (a :: b :: c :: rest) 2 c eq_refl).
  rewrite Ha, Hb, Hc. subst p i.
  cbn [mbind result_bind bind].
  change (Spec.windows (a :: b :: c :: rest))
    with ([a; b; c] :: Spec.windows (b :: c :: rest)).
  cbn [existsb Spec.identical].
  destruct (app_cons_shift before a (b :: c :: rest)) as [-> ->].
  destruct (a =? b)%N; [destruct (b =? c)%N |]; cbn [andb orb];
    try reflexivity; apply IH.
Qed.

Section WithDatabase.
Context (ucd : UnicodeData).

Lemma sequential_loop_windows (q before : pystr) :
  sequential_loop ucd (before ++ q)
    (map Z.of_nat (seq (length before) (length q - 2)))
  = if existsb (flagged ucd) (Spec.windows q) then 0 else 1.
Proof.
  revert before. induction q as [| a q IH]; intros before; [reflexivity |].
  destruct q as [| b [| c rest]]; [reflexivity | reflexivity |].
  rewrite seq_window. cbn [map sequential_loop].
  rewrite slice_window.
  change (Spec.windows (a :: b :: c :: rest))
    with ([a; b; c] :: Spec.windows (b :: c :: rest)).
  cbn [existsb]. fold (flagged ucd [a; b; c]).
  destruct (app_cons_shift before a (b :: c :: rest)) as [-> ->].
  destruct (flagged ucd [a; b; c]); cbn [orb]; [reflexivity | apply IH].
Qed.
End WithDatabase.

Lemma range_len_minus_2 (p : pystr) :
  range (len p - 2) = map Z.of_nat (seq 0 (length p - 2)).
Proof.
  unfold range, len. replace (Z.to_nat (Z.of_nat (length p) - 2))
    with (length p - 2)%nat by lia.
  reflexivity.
Qed.

(** [repeat_check] in closed form. *)
Lemma repeat_check_windows (self : t) :
  repeat_check self
  = Ok (match password self with
        | [] => 2
        | p => if existsb Spec.identical (Spec.windows p) then 0 else 1
        end).
Proof.
  unfold repeat_check. destruct (password self) as [| a p] eqn:Hp;
    [reflexivity |].
  rewrite range_len_minus_2.
  apply (repeat_loop_windows (a :: p) []).
Qed.

(** [sequential_check] in closed form. *)
Lemma sequential_check_windows (ucd : UnicodeData) (self : t) :
  sequential_check ucd self
  = match password self with
    | [] => 2
    | p => if existsb (flagged ucd) (Spec.windows p) then 0 else 1
    end.
Proof.
  unfold sequential_check. destruct (password self) as [| a p] eqn:Hp;
    [reflexivity |].
  rewrite range_len_minus_2.
  apply (sequential_loop_windows ucd (a :: p) []).
Qed.
End Loops.

(** ** Windows and substrings *)

Section Windows.
Import Py.

Lemma windows_cons (a : char) (rest w : pystr) :
  w ∈ Spec.windows rest -> w ∈ Spec.windows (a :: rest).
Proof.
  destruct rest as [| b [| c r]]; cbn [Spec.windows]; intros Hw.
  - exact Hw.
  - exact Hw.
  - apply list_elem_of_further. exact Hw.
Qed.

Lemma windows_head (a b c : char) (rest : pystr) :
  [a; b; c] ∈ Spec.windows (a :: b :: c :: rest).
Proof. cbn [Spec.windows]. apply list_elem_of_here. Qed.

(** The windows are exactly the substrings of length 3. *)
Lemma windows_substring3 (p w : pystr) :
  w ∈ Spec.windows p <-> Spec.substring3 p w.
Proof.
  split.
  - induction p as [| a rest IH]; intros Hw.
    + cbn in Hw. apply elem_of_nil in Hw. contradiction.
    + destruct rest as [| b [| c r]];
        try (cbn in Hw; apply elem_of_nil in Hw; contradiction).
      change (Spec.windows (a :: b :: c :: r))
        with ([a; b; c] :: Spec.windows (b :: c :: r)) in Hw.
      apply elem_of_cons in Hw as [-> | Hw].
      * split; [reflexivity |]. exists [], r. reflexivity.
      * destruct (IH Hw) as [Hlen (before & after & Heq)].
        split; [exact Hlen |].
        exists (a :: before), after. rewrite Heq. reflexivity.
  - intros [Hlen (before & after & ->)].
    induction before as [| x before IH].
    + destruct w as [| a [| b [| c [| d w]]]]; try discriminate Hlen.
      apply windows_head.
    + cbn [app]. apply windows_cons, IH.
Qed.

Lemma identical_true (w : pystr) :
  Spec.identical w = true <-> exists c, w = [c; c; c].
Proof.
  split.
  - destruct w as [| a [| b [| c [| d w]]]]; cbn; try discriminate.
    intros H. apply andb_true_iff in H as [Hab Hbc].
    apply N.eqb_eq in Hab, Hbc. subst. exists c. reflexivity.
  - intros [c ->]. cbn. rewrite N.eqb_refl. reflexivity.
Qed.

(** The window test of the repeat check decides [triple_repeat]. *)
Lemma triple_repeat_windows (p : pystr) :
  existsb Spec.identical (Spec.windows p) = true <-> Spec.triple_repeat p.
Proof.
  rewrite existsb_exists. split.
  - intros (w & Hin & Hid).
    apply identical_true in Hid as [c ->].
    apply list_elem_of_In, windows_substring3 in Hin
      as [_ (before & after & Heq)].
    exists before, c, after. exact Heq.
  - intros (before & c & after & Heq).
    exists [c; c; c]. split.
    + apply list_elem_of_In, windows_substring3.
      split; [reflexivity |]. exists before, after. exact Heq.
    + apply identical_true. exists c. reflexivity.
Qed.

Lemma windows_short (p : pystr) :
  (length p <= 2)%nat -> Spec.windows p = [].
Proof.
  destruct p as [| a [| b [| c r]]]; cbn [length]; intros Hlen;
    try reflexivity.
  lia.
Qed.

(** Every character of a window is a character of the password. *)
Lemma windows_Forall (P : char -> Prop) (p w : pystr) :
  Forall P p -> w ∈ Spec.windows p -> Forall P w.
Proof.
  intros HP Hw. apply windows_substring3 in Hw as [_ (before & after & ->)].
  apply Forall_app in HP as [_ HP]. apply Forall_app in HP as [HP _].
  exact HP.
Qed.
End Windows.

(** ** On ASCII passwords the database does not matter *)

Section Ascii.
Import Py PasswordStrengthChecker.
Context (ucd : UnicodeData).

Lemma existsb_agree {A} (f g : A -> bool) (l : list A) :
  (forall x, x ∈ l -> f x = g x) -> existsb f l = existsb g l.
Proof.
  induction l as [| x l IH]; intros Hfg; [reflexivity |].
  cbn [existsb]. rewrite (Hfg x) by apply list_elem_of_here.
  rewrite IH; [reflexivity |].
  intros y Hy. apply Hfg, list_elem_of_further, Hy.
Qed.

Lemma forallb_agree {A} (f g : A -> bool) (l : list A) :
  Forall (fun x => f x = g x) l -> forallb f l = forallb g l.
Proof.
  induction 1 as [| x l Hx _ IH]; [reflexivity |].
  cbn [forallb]. rewrite Hx, IH. reflexivity.
Qed.

Lemma ISDIGIT_ascii (w : pystr) :
  Forall is_ascii w ->
  Forall (fun c => ISDIGIT ucd c = ISDIGIT ascii_ucd c) w.
Proof.
  intros Hw. eapply Forall_impl; [exact Hw |].
  intros c Hc. cbn beta. rewrite (ascii_ISDIGIT ucd c Hc). reflexivity.
Qed.

Lemma ISLOWER_ascii (w : pystr) :
  Forall is_ascii w ->
  Forall (fun c => ISLOWER ucd c = ISLOWER ascii_ucd c) w.
Proof.
  intros Hw. eapply Forall_impl; [exact Hw |].
  intros c Hc. cbn beta. rewrite (ascii_ISLOWER ucd c Hc). reflexivity.
Qed.

Lemma ISUPPER_ascii (w : pystr) :
  Forall is_ascii w ->
  Forall (fun c => ISUPPER ucd c = ISUPPER ascii_ucd c) w.
Proof.
  intros Hw. eapply Forall_impl; [exact Hw |].
  intros c Hc. cbn beta. rewrite (ascii_ISUPPER ucd c Hc). reflexivity.
Qed.

Lemma isdigit_ascii (w : pystr) :
  Forall is_ascii w -> isdigit ucd w = isdigit ascii_ucd w.
Proof.
  intros Hw. unfold isdigit. destruct w; [reflexivity |].
  apply forallb_agree, ISDIGIT_ascii, Hw.
Qed.

Lemma islower_ascii (w : pystr) :
  Forall is_ascii w -> islower ucd w = islower ascii_ucd w.
Proof.
  unfold islower. generalize false.
  intros cased Hw. revert cased.
  induction Hw as [| c w Hc _ IH]; intros cased; [reflexivity |].
  cbn [islower_from].
  rewrite (ascii_ISUPPER ucd c Hc), (ascii_ISTITLE ucd c Hc),
    (ascii_ISLOWER ucd c Hc).
  rewrite (ascii_ISUPPER ascii_ucd c Hc), (ascii_ISTITLE ascii_ucd c Hc),
    (ascii_ISLOWER ascii_ucd c Hc).
  rewrite !IH. reflexivity.
Qed.

Lemma isupper_ascii (w : pystr) :
  Forall is_ascii w -> isupper ucd w = isupper ascii_ucd w.
Proof.
  unfold isupper. generalize false.
  intros cased Hw. revert cased.
  induction Hw as [| c w Hc _ IH]; intros cased; [reflexivity |].
  cbn [isupper_from].
  rewrite (ascii_ISUPPER ucd c Hc), (ascii_ISTITLE ucd c Hc),
    (ascii_ISLOWER ucd c Hc).
  rewrite (ascii_ISUPPER ascii_ucd c Hc), (ascii_ISTITLE ascii_ucd c Hc),
    (ascii_ISLOWER ascii_ucd c Hc).
  rewrite !IH. reflexivity.
Qed.

Lemma flagged_ascii (w : pystr) :
  Forall is_ascii w -> flagged ucd w = flagged ascii_ucd w.
Proof.
  intros Hw. unfold flagged.
  rewrite (isdigit_ascii w Hw), (islower_ascii w Hw), (isupper_ascii w Hw).
  reflexivity.
Qed.

Lemma same_class_ascii (w : pystr) :
  Forall is_ascii w -> Spec.same_class ucd w = Spec.same_class ascii_ucd w.
Proof.
  intros Hw. unfold Spec.same_class.
  rewrite (forallb_agree _ _ w (ISDIGIT_ascii w Hw)),
    (forallb_agree _ _ w (ISLOWER_ascii w Hw)),
    (forallb_agree _ _ w (ISUPPER_ascii w Hw)).
  reflexivity.
Qed.

(** For an ASCII password [sequential_check] can be run with the least
    database. *)
Lemma sequential_check_ascii (self : t) :
  Forall is_ascii (password self) ->
  sequential_check ucd self = sequential_check ascii_ucd self.
Proof.
  intros Hp. rewrite !sequential_check_windows.
  destruct (password self) as [| a p]; [reflexivity |].
  rewrite (existsb_agree (flagged ucd) (flagged ascii_ucd)); [reflexivity |].
  intros w Hw. apply flagged_ascii. exact (windows_Forall _ _ _ Hp Hw).
Qed.

Lemma evaluate_sequential_runs_ascii (p : pystr) :
  Forall is_ascii p ->
  Spec.evaluate_sequential_runs ucd p
  = Spec.evaluate_sequential_runs ascii_ucd p.
Proof.
  intros Hp. unfold Spec.evaluate_sequential_runs.
  destruct p as [| a p]; [reflexivity |].
  rewrite (existsb_agree (Spec.same_class ucd) (Spec.same_class ascii_ucd));
    [reflexivity |].
  intros w Hw. apply same_class_ascii. exact (windows_Forall _ _ _ Hp Hw).
Qed.

Lemma str_is_ascii_test (p : pystr) :
  forallb (fun c => c <? 128)%N p = true -> Forall is_ascii p.
Proof.
  intros H. apply Forall_forall. intros c Hc.
  rewrite forallb_forall in H. apply N.ltb_lt, H, list_elem_of_In, Hc.
Qed.
End Ascii.

(** ** The character check counts classes *)

Section Classes.
Import Py PasswordStrengthChecker.

Lemma class_count_range (p : pystr) : 0 <= Spec.class_count p <= 4.
Proof.
  unfold Spec.class_count, len.
  rewrite !filter_cons, filter_nil.
  repeat case_decide; cbn [length]; lia.
Qed.

(** Whatever the order in which the set is iterated, the score is the
    number of classes present, less one, and 0 when there is none. *)
Lemma character_check_on_count (p : pystr) (l : list char) :
  iteration_of (set p) l ->
  character_check_on l
  = if Spec.class_count p =? 0 then 0 else Spec.class_count p - 1.
Proof.
  intros Hl. unfold character_check_on.
  rewrite !(any_iteration _ p l Hl).
  unfold Spec.class_count, len.
  rewrite !filter_cons, filter_nil.
  unfold bool_decide, decide.
  destruct (Spec.present_dec lower p), (Spec.present_dec upper p),
    (Spec.present_dec digits p), (Spec.present_dec special p);
    reflexivity.
Qed.

Lemma character_check_count (self : t) :
  character_check self
  = if Spec.class_count (password self) =? 0 then 0
    else Spec.class_count (password self) - 1.
Proof. apply character_check_on_count, elements_iteration. Qed.
End Classes.

(** ** Every window the specification flags, the code flags

    In a database where no character is both lowercase and uppercase or
    titlecase (true of the Unicode database, though not part of the
    interface above), a window of three digits, three lowercase letters or
    three uppercase letters satisfies the test of [sequential_check].  The
    converse fails, already on ASCII. *)

Section Soundness.
Import Py PasswordStrengthChecker.
Context (ucd : UnicodeData).
Hypothesis lower_only : forall c,
  ISLOWER ucd c = true -> ISUPPER ucd c = false /\ ISTITLE ucd c = false.
Hypothesis upper_only : forall c,
  ISUPPER ucd c = true -> ISLOWER ucd c = false /\ ISTITLE ucd c = false.

Lemma islower_from_all (w : pystr) (cased : bool) :
  forallb (ISLOWER ucd) w = true ->
  islower_from ucd cased w = match w with [] => cased | _ => true end.
Proof.
  revert cased. induction w as [| c w IH]; intros cased Hall; [reflexivity |].
  cbn [forallb] in Hall. apply andb_true_iff in Hall as [Hc Hw].
  destruct (lower_only c Hc) as [Hupper Htitle].
  cbn [islower_from]. rewrite Hupper, Htitle, Hc. cbn [orb].
  destruct cased; cbn [negb andb]; rewrite (IH _ Hw); destruct w; reflexivity.
Qed.

Lemma isupper_from_all (w : pystr) (cased : bool) :
  forallb (ISUPPER ucd) w = true ->
  isupper_from ucd cased w = match w with [] => cased | _ => true end.
Proof.
  revert cased. induction w as [| c w IH]; intros cased Hall; [reflexivity |].
  cbn [forallb] in Hall. apply andb_true_iff in Hall as [Hc Hw].
  destruct (upper_only c Hc) as [Hlower Htitle].
  cbn [isupper_from]. rewrite Hlower, Htitle, Hc. cbn [orb].
  destruct cased; cbn [negb andb]; rewrite (IH _ Hw); destruct w; reflexivity.
Qed.

Lemma same_class_flagged (w : pystr) :
  w <> [] -> Spec.same_class ucd w = true -> flagged ucd w = true.
Proof.
  intros Hne Hsame. unfold Spec.same_class in Hsame. unfold flagged.
  apply orb_true_iff in Hsame as [Hsame | Hupper];
    [apply orb_true_iff in Hsame as [Hdigit | Hlower] |].
  - unfold isdigit. destruct w; [contradiction |]. rewrite Hdigit.
    reflexivity.
  - unfold islower. rewrite (islower_from_all w false Hlower).
    destruct w; [contradiction |]. rewrite orb_true_r. reflexivity.
  - unfold isupper. rewrite (isupper_from_all w false Hupper).
    destruct w; [contradiction |]. apply orb_true_r.
Qed.

(** If the check as specified returns 0, so does the code. *)
Lemma evaluate_sequential_runs_0 (self : t) :
  Spec.evaluate_sequential_runs ucd (password self) = 0 ->
  sequential_check ucd self = 0.
Proof.
  rewrite sequential_check_windows. unfold Spec.evaluate_sequential_runs.
  destruct (password self) as [| a p]; [discriminate |].
  destruct (existsb (Spec.same_class ucd) _) eqn:Hex; [| discriminate].
  intros _. apply existsb_exists in Hex as (w & Hin & Hsame).
  assert (Hflag : existsb (flagged ucd) (Spec.windows (a :: p)) = true).
  { apply existsb_exists. exists w. split; [exact Hin |].
    apply same_class_flagged; [| exact Hsame].
    apply list_elem_of_In, windows_substring3 in Hin as [Hlen _].
    destruct w; [discriminate Hlen | discriminate]. }
  rewrite Hflag. reflexivity.
Qed.
End Soundness.

(** ** The display handlers *)

Section Display.
Import Py AppWindow.

Lemma getitem_in_range {A} (l : list A) (k : nat) :
  Z.of_nat k < len l -> exists x, l !! k = Some x /\ getitem l (Z.of_nat k) = Ok x.
Proof.
  intros Hk. unfold len in Hk.
  destruct (lookup_lt_is_Some_2 l k) as [x Hx]; [lia |].
  exists x. split; [exact Hx | apply getitem_lookup, Hx].
Qed.

Lemma store_lookup {A} (l : list A) (k : nat) (x : A) :
  Z.of_nat k < len l -> store l (Z.of_nat k) x !! k = Some x.
Proof.
  intros Hk. unfold len in Hk. unfold store, position.
  destruct (Z.ltb_spec (Z.of_nat k) 0); [lia |].
  rewrite Nat2Z.id. apply list_lookup_insert_eq. lia.
Qed.

Lemma store_length {A} (l : list A) (i : Z) (x : A) :
  len (store l i x) = len l.
Proof. unfold store, len. rewrite length_insert. reflexivity. Qed.

(** Within the list, [set_bar] succeeds and leaves the status rows
    alone. *)
Lemma set_bar_ok (k : nat) (paint : bar -> bar) (w : widgets) :
  Z.of_nat k < len (CONTROLS w) ->
  exists w', set_bar (Z.of_nat k) paint w = Ok w'
             /\ STATUS w' = STATUS w
             /\ len (CONTROLS w') = len (CONTROLS w).
Proof.
  intros Hk. destruct (getitem_in_range _ k Hk) as (b & _ & Hget).
  unfold set_bar. rewrite Hget. cbn [mbind result_bind bind].
  eexists. split; [reflexivity |]. cbn [STATUS CONTROLS].
  split; [reflexivity | apply store_length].
Qed.

(** Within the list, [criteria_satisfied] succeeds and ticks the box
    exactly when the status it is given is 3. *)
Lemma criteria_satisfied_ok (k : nat) (status : Z) (w : widgets) :
  Z.of_nat k < len (STATUS w) ->
  exists w', criteria_satisfied (Z.of_nat k) status w = Ok w'
             /\ STATUS w' !! k
                = Some (if status =? 3
                        then {| box_opacity := 1; value := Some true |}
                        else {| box_opacity := 0; value := Some false |}).
Proof.
  intros Hk. destruct (getitem_in_range _ k Hk) as (b & _ & Hget).
  unfold criteria_satisfied.
  destruct (Z.leb_spec (len (STATUS w)) (Z.of_nat k)); [lia |].
  rewrite Hget. cbn [mbind result_bind bind].
  eexists. split; [reflexivity |]. cbn [STATUS].
  apply store_lookup, Hk.
Qed.

(** Outside the list, [criteria_satisfied] does nothing. *)
Lemma criteria_satisfied_skip (index status : Z) (w : widgets) :
  len (STATUS w) <= index -> criteria_satisfied index status w = Ok w.
Proof.
  intros Hk. unfold criteria_satisfied.
  destruct (Z.leb_spec (len (STATUS w)) index); [reflexivity | lia].
Qed.
End Display.

(** * The claims of the specification *)

Section Claims.
Import Py PasswordStrengthChecker.

(** C3.  For a password of length [n] the length check returns 0 when
    [n] is in [0,7], 1 when it is in [8,11], 2 when it is in [12,15] and 3
    when it is at least 16; in particular the boundary lengths 8, 12 and
    16 score 1, 2 and 3. *)
Theorem length_check_buckets (self : t) :
  let n := len (password self) in
  (0 <= n <= 7 -> length_check self = 0) /\
  (8 <= n <= 11 -> length_check self = 1) /\
  (12 <= n <= 15 -> length_check self = 2) /\
  (16 <= n -> length_check self = 3) /\
  (n = 8 -> length_check self = 1) /\
  (n = 12 -> length_check self = 2) /\
  (n = 16 -> length_check self = 3).
Proof.
  intros n. unfold length_check. fold n.
  repeat split; intros Hn;
    repeat match goal with
      | |- context [?a <? ?b] => destruct (Z.ltb_spec a b)
      | |- context [?a <=? ?b] => destruct (Z.leb_spec a b)
      end; cbn [andb]; lia.
Qed.

Lemma length_check_buckets_witness :
  length_check (Spec.checker "password") = 1
  /\ length_check (Spec.checker "0123456789ab") = 2
  /\ length_check (Spec.checker "0123456789abcdef") = 3.
Proof.
  split; [| split].
  - pose proof (length_check_buckets (Spec.checker "password")) as H.
    cbv zeta in H. destruct H as (_ & H & _). apply H. vm_compute.
    split; discriminate.
  - pose proof (length_check_buckets (Spec.checker "0123456789ab")) as H.
    cbv zeta in H. destruct H as (_ & _ & H & _). apply H. vm_compute.
    split; discriminate.
  - pose proof (length_check_buckets (Spec.checker "0123456789abcdef")) as H.
    cbv zeta in H. destruct H as (_ & _ & _ & H & _). apply H. vm_compute.
    discriminate.
Defined.

(** C5.  The repeat check returns 2 for the empty password, 0 when some
    substring of length 3 has three identical characters, and 1
    otherwise; in particular it maps the empty string to 2, "aaa" to 0 and
    "abcabc" to 1. *)
Theorem repeat_check_triple (self : t) :
  let p := password self in
  (p = [] -> repeat_check self = Ok 2) /\
  (Spec.triple_repeat p -> repeat_check self = Ok 0) /\
  (p <> [] -> ~ Spec.triple_repeat p -> repeat_check self = Ok 1) /\
  repeat_check (Spec.checker EmptyString) = Ok 2 /\
  repeat_check (Spec.checker "aaa") = Ok 0 /\
  repeat_check (Spec.checker "abcabc") = Ok 1.
Proof.
  intros p. subst p. rewrite repeat_check_windows.
  generalize (password self). intros p.
  pose proof (triple_repeat_windows p) as Hiff.
  repeat split; try reflexivity.
  - intros ->. reflexivity.
  - intros Htriple. destruct p as [| a p'].
    + destruct Htriple as (before & c & after & Heq).
      destruct before; discriminate Heq.
    + apply Hiff in Htriple. rewrite Htriple. reflexivity.
  - intros Hne Hno. destruct p as [| a p']; [contradiction |].
    destruct (existsb Spec.identical (Spec.windows (a :: p'))) eqn:Hex;
      [| reflexivity].
    exfalso. apply Hno, Hiff. reflexivity.
Qed.

Lemma repeat_check_triple_witness :
  repeat_check (Spec.checker "xaaay") = Ok 0
  /\ repeat_check (Spec.checker "abab") = Ok 1.
Proof.
  split.
  - pose proof (repeat_check_triple (Spec.checker "xaaay")) as H.
    cbv zeta in H. destruct H as (_ & H & _). apply H.
    exists (str "x"), 97%N, (str "y"). reflexivity.
  - pose proof (repeat_check_triple (Spec.checker "abab")) as H.
    cbv zeta in H. destruct H as (_ & _ & H & _). apply H.
    + discriminate.
    + intros Htriple. apply triple_repeat_windows in Htriple.
      discriminate Htriple.
Defined.

(** C10.  For a password of length 1 or 2 the repeat check and the
    sequential check both return 1: the scan finds no substring of length
    3, and the value 2 is returned only for the empty password. *)
Theorem short_password_passes (ucd : UnicodeData) (self : t) :
  let p := password self in
  ((length p = 1 \/ length p = 2)%nat ->
   repeat_check self = Ok 1 /\ sequential_check ucd self = 1
   /\ Spec.windows p = []) /\
  (repeat_check self = Ok 2 -> p = []) /\
  (sequential_check ucd self = 2 -> p = []).
Proof.
  intros p. subst p. rewrite repeat_check_windows, sequential_check_windows.
  generalize (password self). intros p.
  split; [| split].
  - intros Hlen.
    assert (Hw : Spec.windows p = []) by (apply windows_short; lia).
    destruct p as [| a p']; [cbn in Hlen; lia |].
    rewrite Hw. repeat split.
  - destruct p as [| a p']; [reflexivity |].
    destruct (existsb _ _); discriminate.
  - destruct p as [| a p']; [reflexivity |].
    destruct (existsb _ _); discriminate.
Qed.

Lemma short_password_passes_witness :
  repeat_check (Spec.checker "zz") = Ok 1
  /\ sequential_check ascii_ucd (Spec.checker "zz") = 1
  /\ Spec.windows (str "zz") = [].
Proof.
  pose proof (short_password_passes ascii_ucd (Spec.checker "zz")) as H.
  cbv zeta in H. destruct H as (H & _). apply H.
  right. reflexivity.
Defined.

(** C7.  The length check and the character check return an integer in
    {0,1,2,3}; the repeat check and the sequential check return an integer
    in {0,1,2}. *)
Theorem score_ranges (ucd : UnicodeData) (self : t) :
  (length_check self = 0 \/ length_check self = 1
   \/ length_check self = 2 \/ length_check self = 3) /\
  (character_check self = 0 \/ character_check self = 1
   \/ character_check self = 2 \/ character_check self = 3) /\
  (repeat_check self = Ok 0 \/ repeat_check self = Ok 1
   \/ repeat_check self = Ok 2) /\
  (sequential_check ucd self = 0 \/ sequential_check ucd self = 1
   \/ sequential_check ucd self = 2).
Proof.
  repeat split.
  - unfold length_check.
    repeat match goal with
      | |- context [if ?b then _ else _] => destruct b
      end; auto.
  - rewrite character_check_count.
    pose proof (class_count_range (password self)) as Hrange.
    destruct (Z.eqb_spec (Spec.class_count (password self)) 0); lia.
  - rewrite repeat_check_windows.
    destruct (password self); [| destruct (existsb _ _)]; auto.
  - rewrite sequential_check_windows.
    destruct (password self); [| destruct (existsb _ _)]; auto.
Qed.

(** C4.  The character check counts how many of the four classes
    (lowercase letters, uppercase letters, digits, the special symbols)
    have a member in the password and returns the count less one for
    counts 1 to 4 and 0 when no class is present; in particular the empty
    string scores 0, "abc" 0, "abcABC" 1, "abcABC123" 2 and
    "abcABC123!@#" 3. *)
Theorem character_check_counts_classes (self : t) :
  let count := Spec.class_count (password self) in
  0 <= count <= 4 /\
  (count = 0 -> character_check self = 0) /\
  (1 <= count <= 4 -> character_check self = count - 1) /\
  character_check (Spec.checker EmptyString) = 0 /\
  character_check (Spec.checker "abc") = 0 /\
  character_check (Spec.checker "abcABC") = 1 /\
  character_check (Spec.checker "abcABC123") = 2 /\
  character_check (Spec.checker "abcABC123!@#") = 3.
Proof.
  intros count. subst count. rewrite character_check_count.
  pose proof (class_count_range (password self)) as Hrange.
  split; [exact Hrange |].
  split; [intros ->; reflexivity |].
  split.
  - intros Hcount.
    destruct (Z.eqb_spec (Spec.class_count (password self)) 0); [lia |].
    reflexivity.
  - repeat split; vm_compute; reflexivity.
Qed.

Lemma character_check_counts_classes_witness :
  character_check (Spec.checker "pass1234") = 1.
Proof.
  pose proof (character_check_counts_classes (Spec.checker "pass1234")) as H.
  cbv zeta in H. destruct H as (_ & _ & H & _).
  change 1 with (Spec.class_count (password (Spec.checker "pass1234")) - 1).
  apply H. vm_compute. split; discriminate.
Defined.

(** C6.  The four checks are total on every string and never raise, and
    a missing password gives the same four scores as the empty string: it
    is replaced by the empty string before scoring. *)
Theorem checks_total (ucd : UnicodeData) (self : t) :
  (exists length character repeat sequential,
     Spec.scores ucd self = Ok (length, character, repeat, sequential)) /\
  __init__ None = __init__ (Some []) /\
  password (__init__ None) = [] /\
  Spec.scores ucd (__init__ None) = Spec.scores ucd (__init__ (Some [])) /\
  (forall w, AppWindow.check_password ucd None w
             = AppWindow.check_password ucd (Some []) w).
Proof.
  split.
  - unfold Spec.scores. rewrite repeat_check_windows.
    cbn [mbind result_bind bind]. eauto.
  - repeat split.
Qed.

(** C9.  The checks are deterministic and stateless: two evaluations of
    the same password string give the same four scores, in whatever order
    the character set happens to be iterated. *)
Theorem checks_deterministic (ucd : UnicodeData) (first second : t)
    (order1 order2 : list char) :
  password first = password second ->
  iteration_of (set (password first)) order1 ->
  iteration_of (set (password second)) order2 ->
  length_check first = length_check second
  /\ character_check_on order1 = character_check_on order2
  /\ character_check first = character_check_on order1
  /\ character_check first = character_check second
  /\ repeat_check first = repeat_check second
  /\ sequential_check ucd first = sequential_check ucd second.
Proof.
  intros Hsame Horder1 Horder2.
  rewrite (character_check_on_count _ _ Horder1),
    (character_check_on_count _ _ Horder2), !character_check_count.
  unfold length_check, repeat_check, sequential_check.
  rewrite Hsame. repeat split.
Qed.

Lemma checks_deterministic_witness :
  character_check_on [97; 66; 49]%N = character_check_on [49; 97; 66]%N
  /\ character_check (Spec.checker "aB1a") = character_check_on [97; 66; 49]%N.
Proof.
  assert (Hiter : forall l : list char,
             bool_decide (NoDup l) = true ->
             set l = set (password (Spec.checker "aB1a")) ->
             iteration_of (set (password (Spec.checker "aB1a"))) l).
  { intros l Hnodup Hl. split; [exact (bool_decide_eq_true_1 _ Hnodup) |].
    intros c. rewrite <- Hl. unfold set. rewrite elem_of_list_to_set.
    reflexivity. }
  pose proof (checks_deterministic ascii_ucd
                (Spec.checker "aB1a") (Spec.checker "aB1a")
                [97; 66; 49]%N [49; 97; 66]%N eq_refl) as H.
  destruct H as (_ & H1 & H2 & _).
  - apply Hiter; vm_compute; reflexivity.
  - apply Hiter; vm_compute; reflexivity.
  - split; [exact H1 | exact H2].
Defined.

(** C8.  Where the scores reach the display, a repeat or sequential
    score of 1 is replaced by 3 before it is compared with the display
    scale, 0 and 2 are passed on unchanged, and the criteria box is
    ticked only for the value 3. *)
Theorem pass_remapped_to_top_tier (strength : Z) (w : AppWindow.widgets) :
  4 <= len (AppWindow.CONTROLS w) ->
  4 <= len (AppWindow.STATUS w) ->
  strength = 0 \/ strength = 1 \/ strength = 2 ->
  exists passed w1 w2 after_repeat after_sequential,
    (strength = 1 -> passed = 3) /\
    (strength = 0 \/ strength = 2 -> passed = strength) /\
    AppWindow.set_bar 2 (AppWindow.two_level strength) w = Ok w1 /\
    AppWindow.repeat_check_status strength w
    = AppWindow.criteria_satisfied 2 passed w1 /\
    AppWindow.set_bar 3 (AppWindow.two_level strength) w = Ok w2 /\
    AppWindow.sequential_check_status strength w
    = AppWindow.criteria_satisfied 3 passed w2 /\
    AppWindow.repeat_check_status strength w = Ok after_repeat /\
    AppWindow.sequential_check_status strength w = Ok after_sequential /\
    AppWindow.value <$> AppWindow.STATUS after_repeat !! 2%nat
    = Some (Some (bool_decide (passed = 3))) /\
    AppWindow.value <$> AppWindow.STATUS after_sequential !! 3%nat
    = Some (Some (bool_decide (passed = 3))).
Proof.
  intros Hcontrols Hstatus Hstrength.
  destruct (set_bar_ok 2 (AppWindow.two_level strength) w)
    as (w1 & Hbar1 & Hstatus1 & _); [lia |].
  destruct (set_bar_ok 3 (AppWindow.two_level strength) w)
    as (w2 & Hbar2 & Hstatus2 & _); [lia |].
  set (passed := if strength =? 1 then 3 else strength).
  destruct (criteria_satisfied_ok 2 passed w1)
    as (after_repeat & Hrepeat & Hbox2); [rewrite Hstatus1; lia |].
  destruct (criteria_satisfied_ok 3 passed w2)
    as (after_sequential & Hsequential & Hbox3); [rewrite Hstatus2; lia |].
  assert (Hcall2 : AppWindow.repeat_check_status strength w
                   = AppWindow.criteria_satisfied 2 passed w1).
  { unfold AppWindow.repeat_check_status.
    destruct (Z.ltb_spec (len (AppWindow.CONTROLS w)) 3); [lia |].
    change (Z.of_nat 2) with 2 in Hbar1. rewrite Hbar1. reflexivity. }
  assert (Hcall3 : AppWindow.sequential_check_status strength w
                   = AppWindow.criteria_satisfied 3 passed w2).
  { unfold AppWindow.sequential_check_status.
    destruct (Z.ltb_spec (len (AppWindow.CONTROLS w)) 4); [lia |].
    change (Z.of_nat 3) with 3 in Hbar2. rewrite Hbar2. reflexivity. }
  assert (Hshown : (if passed =? 3
                    then {| AppWindow.box_opacity := 1;
                            AppWindow.value := Some true |}
                    else {| AppWindow.box_opacity := 0;
                            AppWindow.value := Some false |})
                   = {| AppWindow.box_opacity :=
                          if passed =? 3 then 1 else 0;
                        AppWindow.value := Some (bool_decide (passed = 3)) |}).
  { destruct (Z.eqb_spec passed 3) as [Heq | Hne].
    - rewrite (bool_decide_eq_true_2 _ Heq). reflexivity.
    - rewrite (bool_decide_eq_false_2 _ Hne). reflexivity. }
  exists passed, w1, w2, after_repeat, after_sequential.
  split; [intros ->; reflexivity |].
  split; [intros [-> | ->]; reflexivity |].
  split; [exact Hbar1 |]. split; [exact Hcall2 |].
  split; [exact Hbar2 |]. split; [exact Hcall3 |].
  split; [rewrite Hcall2; exact Hrepeat |].
  split; [rewrite Hcall3; exact Hsequential |].
  rewrite Hbox2, Hbox3, Hshown. split; reflexivity.
Qed.

Lemma pass_remapped_to_top_tier_witness :
  exists after_repeat,
    AppWindow.repeat_check_status 1 AppWindow.initial = Ok after_repeat
    /\ AppWindow.value <$> AppWindow.STATUS after_repeat !! 2%nat
       = Some (Some true).
Proof.
  destruct (pass_remapped_to_top_tier 1 AppWindow.initial)
    as (passed & w1 & w2 & after_repeat & after_sequential
        & Hone & _ & _ & _ & _ & _ & Hrepeat & _ & Hbox & _).
  - vm_compute. discriminate.
  - vm_compute. discriminate.
  - right. left. reflexivity.
  - exists after_repeat. split; [exact Hrepeat |].
    rewrite Hbox, (Hone eq_refl). reflexivity.
Defined.

(** C1, at the input where the code departs from it.  The password
    "a1B2" has no window of three digits, three lowercase letters or
    three uppercase letters, so the check as specified returns 1; the
    code returns 0, because "1B2".isupper() holds: [isupper] ignores the
    characters without case. *)
Theorem sequential_check_flags_mixed_window (ucd : UnicodeData) :
  sequential_check ucd (Spec.checker "a1B2") = 0
  /\ Spec.evaluate_sequential_runs ucd (str "a1B2") = 1
  /\ Spec.substring3 (str "a1B2") (str "1B2")
  /\ Spec.same_class ucd (str "1B2") = false
  /\ isupper ucd (str "1B2") = true.
Proof.
  assert (Hp : Forall is_ascii (str "a1B2"))
    by (apply str_is_ascii_test; reflexivity).
  assert (Hw : Forall is_ascii (str "1B2"))
    by (apply str_is_ascii_test; reflexivity).
  rewrite (sequential_check_ascii ucd (Spec.checker "a1B2") Hp),
    (evaluate_sequential_runs_ascii ucd _ Hp),
    (same_class_ascii ucd _ Hw), (isupper_ascii ucd _ Hw).
  repeat split. exists (str "a"), []. reflexivity.
Qed.

(** C2, amended.  For "Tr0ub4dor&3" the length check returns 1, the
    character check 3, the repeat check 1 and the sequential check 0: the
    window "dor" is three lowercase letters, so the password does have a
    run of three characters of one class. *)
Theorem troubador_scores (ucd : UnicodeData) :
  let checker := Spec.checker "Tr0ub4dor&3" in
  length_check checker = 1
  /\ character_check checker = 3
  /\ repeat_check checker = Ok 1
  /\ sequential_check ucd checker = 0
  /\ Spec.substring3 (password checker) (str "dor")
  /\ Spec.same_class ucd (str "dor") = true
  /\ Spec.evaluate_sequential_runs ucd (password checker) = 0.
Proof.
  intros checker. subst checker.
  assert (Hp : Forall is_ascii (str "Tr0ub4dor&3"))
    by (apply str_is_ascii_test; reflexivity).
  assert (Hw : Forall is_ascii (str "dor"))
    by (apply str_is_ascii_test; reflexivity).
  rewrite (sequential_check_ascii ucd (Spec.checker "Tr0ub4dor&3") Hp),
    (same_class_ascii ucd _ Hw).
  change (password (Spec.checker "Tr0ub4dor&3")) with (str "Tr0ub4dor&3").
  rewrite (evaluate_sequential_runs_ascii ucd _ Hp).
  split; [reflexivity |]. split; [vm_compute; reflexivity |].
  split; [reflexivity |]. split; [reflexivity |].
  split; [| split; reflexivity].
  split; [reflexivity |]. exists (str "Tr0ub4"), (str "&3"). reflexivity.
Qed.

(** C2 as stated does not hold: the sequential check does not return 1
    for "Tr0ub4dor&3". *)
Lemma troubador_sequential_not_1 :
  ~ (forall ucd : UnicodeData,
       let checker := Spec.checker "Tr0ub4dor&3" in
       length_check checker = 1
       /\ character_check checker = 3
       /\ repeat_check checker = Ok 1
       /\ sequential_check ucd checker = 1).
Proof.
  intros Hclaim. destruct (Hclaim ascii_ucd) as (_ & _ & _ & Hsequential).
  vm_compute in Hsequential. discriminate Hsequential.
Qed.
End Claims.

(** * Further properties of the code *)

(** ** The tests of [str.islower] and [str.isupper] *)

Section CaseTests.
Import Py PasswordStrengthChecker.
Context (ucd : UnicodeData).

Lemma islower_from_iff (w : pystr) (cased : bool) :
  islower_from ucd cased w = true
  <-> Runs.no_upper ucd w /\ (cased = true \/ Runs.some_lower ucd w).
Proof.
  unfold Runs.no_upper, Runs.some_lower.
  revert cased. induction w as [| c w IH]; intros cased.
  - cbn [islower_from]. rewrite Exists_nil. split.
    + intros ->. split; [constructor | left; reflexivity].
    + intros [_ [H | []]]. exact H.
  - cbn [islower_from]. rewrite Forall_cons, Exists_cons.
    destruct (ISUPPER ucd c) eqn:Hu; cbn [orb].
    { split; [discriminate | intros [[[H _] _] _]; discriminate H]. }
    destruct (ISTITLE ucd c) eqn:Ht.
    { split; [discriminate | intros [[[_ H] _] _]; discriminate H]. }
    destruct cased, (ISLOWER ucd c) eqn:Hl; cbn [negb andb]; rewrite IH;
      intuition (auto; discriminate).
Qed.

Lemma isupper_from_iff (w : pystr) (cased : bool) :
  isupper_from ucd cased w = true
  <-> Runs.no_lower ucd w /\ (cased = true \/ Runs.some_upper ucd w).
Proof.
  unfold Runs.no_lower, Runs.some_upper.
  revert cased. induction w as [| c w IH]; intros cased.
  - cbn [isupper_from]. rewrite Exists_nil. split.
    + intros ->. split; [constructor | left; reflexivity].
    + intros [_ [H | []]]. exact H.
  - cbn [isupper_from]. rewrite Forall_cons, Exists_cons.
    destruct (ISLOWER ucd c) eqn:Hl; cbn [orb].
    { split; [discriminate | intros [[[H _] _] _]; discriminate H]. }
    destruct (ISTITLE ucd c) eqn:Ht.
    { split; [discriminate | intros [[[_ H] _] _]; discriminate H]. }
    destruct cased, (ISUPPER ucd c) eqn:Hu; cbn [negb andb]; rewrite IH;
      intuition (auto; discriminate).
Qed.

Lemma isdigit_iff (w : pystr) :
  isdigit ucd w = true <-> w <> [] /\ Runs.all_digits ucd w.
Proof.
  unfold isdigit, Runs.all_digits. destruct w as [| c w].
  - split; [discriminate | intros [H _]; contradiction].
  - rewrite forallb_forall, Forall_forall. split.
    + intros H. split; [discriminate |].
      intros x Hx. apply H, list_elem_of_In, Hx.
    + intros [_ H] x Hx. apply H, list_elem_of_In, Hx.
Qed.

(** The condition of [sequential_check] on a chunk that is not empty. *)
Lemma flagged_caught (w : pystr) :
  w <> [] -> flagged ucd w = true <-> Runs.caught ucd w.
Proof.
  intros Hne. unfold flagged, Runs.caught, islower, isupper.
  rewrite !orb_true_iff, isdigit_iff, islower_from_iff, isupper_from_iff.
  intuition (auto; discriminate).
Qed.

Lemma windows_nonempty (p w : pystr) : w ∈ Spec.windows p -> w <> [].
Proof.
  intros Hw. apply windows_substring3 in Hw as [Hlen _].
  destruct w; [discriminate Hlen | discriminate].
Qed.

Lemma sequential_check_0_iff (self : t) :
  password self <> [] ->
  sequential_check ucd self = 0
  <-> exists w, Spec.substring3 (password self) w /\ Runs.caught ucd w.
Proof.
  intros Hne. rewrite sequential_check_windows.
  destruct (password self) as [| a p]; [contradiction |].
  destruct (existsb (flagged ucd) (Spec.windows (a :: p))) eqn:Hex.
  - split; [intros _ | reflexivity].
    apply existsb_exists in Hex as (w & Hin & Hflag).
    apply list_elem_of_In in Hin. exists w. split.
    + apply windows_substring3, Hin.
    + apply flagged_caught; [exact (windows_nonempty _ _ Hin) | exact Hflag].
  - split; [discriminate |]. intros (w & Hsub & Hcaught). exfalso.
    apply windows_substring3 in Hsub.
    apply not_true_iff_false in Hex. apply Hex.
    apply existsb_exists. exists w. split.
    + apply list_elem_of_In, Hsub.
    + apply flagged_caught; [exact (windows_nonempty _ _ Hsub) | exact Hcaught].
Qed.
End CaseTests.

(** ** How the scores move with the password *)

Section Scores.
Import Py PasswordStrengthChecker.

Lemma present_incl (class : gset char) (p q : pystr) :
  (forall c, c ∈ p -> c ∈ q) -> Spec.present class p -> Spec.present class q.
Proof.
  unfold Spec.present. rewrite !Exists_exists.
  intros Hincl (c & Hc & Hclass). exists c. split; [apply Hincl, Hc | exact Hclass].
Qed.

Lemma class_count_incl (p q : pystr) :
  (forall c, c ∈ p -> c ∈ q) -> Spec.class_count p <= Spec.class_count q.
Proof.
  intros Hincl. unfold Spec.class_count, len.
  rewrite !filter_cons, !filter_nil. unfold decide.
  pose proof (present_incl lower p q Hincl).
  pose proof (present_incl upper p q Hincl).
  pose proof (present_incl digits p q Hincl).
  pose proof (present_incl special p q Hincl).
  destruct (Spec.present_dec lower p), (Spec.present_dec upper p),
    (Spec.present_dec digits p), (Spec.present_dec special p),
    (Spec.present_dec lower q), (Spec.present_dec upper q),
    (Spec.present_dec digits q), (Spec.present_dec special q);
    cbn [length]; try lia; tauto.
Qed.

Lemma class_count_4 (p : pystr) :
  Spec.class_count p = 4
  <-> Spec.present lower p /\ Spec.present upper p
      /\ Spec.present digits p /\ Spec.present special p.
Proof.
  unfold Spec.class_count, len.
  rewrite !filter_cons, !filter_nil. unfold decide.
  destruct (Spec.present_dec lower p), (Spec.present_dec upper p),
    (Spec.present_dec digits p), (Spec.present_dec special p);
    cbn [length]; split; try lia; tauto.
Qed.

Lemma substring3_extend (before p after w : pystr) :
  Spec.substring3 p w -> Spec.substring3 (before ++ p ++ after) w.
Proof.
  intros [Hlen (b & a & ->)]. split; [exact Hlen |].
  exists (before ++ b), (a ++ after). rewrite <- !app_assoc. reflexivity.
Qed.

Lemma triple_repeat_extend (before p after : pystr) :
  Spec.triple_repeat p -> Spec.triple_repeat (before ++ p ++ after).
Proof.
  intros (b & c & a & ->). exists (before ++ b), c, (a ++ after).
  rewrite <- !app_assoc. reflexivity.
Qed.

Lemma repeat_check_0_iff (self : t) :
  repeat_check self = Ok 0 <-> Spec.triple_repeat (password self).
Proof.
  rewrite repeat_check_windows, <- triple_repeat_windows.
  destruct (password self) as [| a p]; [split; discriminate |].
  destruct (existsb _ _); split; congruence.
Qed.

Lemma triple_repeat_nonempty (p : pystr) : Spec.triple_repeat p -> p <> [].
Proof. intros (b & c & a & ->). destruct b; discriminate. Qed.

Lemma substring3_nonempty (p w : pystr) : Spec.substring3 p w -> p <> [].
Proof.
  intros [Hlen (b & a & ->)]. destruct w; [discriminate Hlen |].
  destruct b; discriminate.
Qed.
End Scores.

Section ScoreTheorems.
Import Py PasswordStrengthChecker.

(** X1.  For a password that is not empty, the sequential check returns
    0 exactly when some substring of length 3 is three digits, or has a
    lowercase character and no uppercase or titlecase one, or has an
    uppercase character and no lowercase or titlecase one; otherwise it
    returns 1. *)
Theorem sequential_check_exact (ucd : UnicodeData) (self : t) :
  password self <> [] ->
  (sequential_check ucd self = 0
   <-> exists w, Spec.substring3 (password self) w /\ Runs.caught ucd w)
  /\ (sequential_check ucd self = 1
      <-> ~ exists w, Spec.substring3 (password self) w /\ Runs.caught ucd w).
Proof.
  intros Hne. pose proof (sequential_check_0_iff ucd self Hne) as H0.
  split; [exact H0 |]. rewrite <- H0.
  rewrite sequential_check_windows.
  destruct (password self) as [| a p]; [contradiction |].
  destruct (existsb _ _); split; (discriminate || congruence || reflexivity).
Qed.

Lemma sequential_check_exact_witness :
  sequential_check ascii_ucd (Spec.checker "Ab#1") = 0
  <-> exists w, Spec.substring3 (str "Ab#1") w /\ Runs.caught ascii_ucd w.
Proof.
  apply (sequential_check_exact ascii_ucd (Spec.checker "Ab#1")).
  discriminate.
Defined.

(** X2.  A longer password never gets a lower length score. *)
Theorem length_check_monotone (shorter longer : t) :
  len (password shorter) <= len (password longer) ->
  length_check shorter <= length_check longer.
Proof.
  intros Hlen. unfold length_check.
  repeat match goal with
    | |- context [?a <? ?b] => destruct (Z.ltb_spec a b)
    | |- context [?a <=? ?b] => destruct (Z.leb_spec a b)
    end; cbn [andb]; lia.
Qed.

Lemma length_check_monotone_witness :
  length_check (Spec.checker "abcdefg")
  <= length_check (Spec.checker "abcdefgh").
Proof.
  apply (length_check_monotone (Spec.checker "abcdefg")
           (Spec.checker "abcdefgh")).
  vm_compute. discriminate.
Defined.

(** X3.  Adding characters never lowers the character score: if every
    character of one password occurs in another, the other scores at
    least as much. *)
Theorem character_check_monotone (smaller larger : t) :
  (forall c, c ∈ password smaller -> c ∈ password larger) ->
  character_check smaller <= character_check larger.
Proof.
  intros Hincl. rewrite !character_check_count.
  pose proof (class_count_incl _ _ Hincl).
  pose proof (class_count_range (password smaller)).
  pose proof (class_count_range (password larger)).
  destruct (Z.eqb_spec (Spec.class_count (password smaller)) 0),
    (Z.eqb_spec (Spec.class_count (password larger)) 0); lia.
Qed.

Lemma character_check_monotone_witness :
  character_check (Spec.checker "ab") <= character_check (Spec.checker "a1b").
Proof.
  apply (character_check_monotone (Spec.checker "ab") (Spec.checker "a1b")).
  intros c Hc. change (c ∈ [97; 98]%N) in Hc. change (c ∈ [97; 49; 98]%N).
  rewrite !elem_of_cons in *. tauto.
Defined.

(** X4.  The character score depends only on which characters occur:
    two passwords with the same characters, in any order and any number of
    times, get the same score. *)
Theorem character_check_same_characters (first second : t) :
  (forall c, c ∈ password first <-> c ∈ password second) ->
  character_check first = character_check second.
Proof.
  intros Hsame. rewrite !character_check_count.
  assert (Hcount : Spec.class_count (password first)
                   = Spec.class_count (password second)).
  { apply Z.le_antisymm; apply class_count_incl; intros c; apply Hsame. }
  rewrite Hcount. reflexivity.
Qed.

Lemma character_check_same_characters_witness :
  character_check (Spec.checker "aB1") = character_check (Spec.checker "1aBBa").
Proof.
  apply (character_check_same_characters (Spec.checker "aB1")
           (Spec.checker "1aBBa")).
  intros c. change (c ∈ [97; 66; 49]%N <-> c ∈ [49; 97; 66; 66; 97]%N).
  rewrite !elem_of_cons, !elem_of_nil. tauto.
Defined.

(** X5.  The character check returns its top score 3 exactly when the
    password has a lowercase letter, an uppercase letter, a digit and one
    of the special symbols. *)
Theorem character_check_top (self : t) :
  character_check self = 3
  <-> Spec.present lower (password self)
      /\ Spec.present upper (password self)
      /\ Spec.present digits (password self)
      /\ Spec.present special (password self).
Proof.
  rewrite <- class_count_4, character_check_count.
  pose proof (class_count_range (password self)).
  destruct (Z.eqb_spec (Spec.class_count (password self)) 0); lia.
Qed.

(** X6.  A failure is not undone by typing more: when a password fails
    the repeat check or the sequential check, so does every password that
    contains it. *)
Theorem failure_persists (ucd : UnicodeData) (self longer : t)
    (before after : pystr) :
  password longer = before ++ password self ++ after ->
  (repeat_check self = Ok 0 -> repeat_check longer = Ok 0)
  /\ (sequential_check ucd self = 0 -> sequential_check ucd longer = 0).
Proof.
  intros Hlonger. split.
  - rewrite !repeat_check_0_iff, Hlonger. apply triple_repeat_extend.
  - intros Hfail.
    assert (Hne : password self <> []).
    { intros Hempty. unfold sequential_check in Hfail.
      rewrite Hempty in Hfail. discriminate Hfail. }
    apply (sequential_check_0_iff ucd self Hne) in Hfail
      as (w & Hsub & Hcaught).
    assert (Hsub' : Spec.substring3 (password longer) w)
      by (rewrite Hlonger; apply substring3_extend, Hsub).
    apply sequential_check_0_iff;
      [exact (substring3_nonempty _ _ Hsub') |].
    exists w. split; [exact Hsub' | exact Hcaught].
Qed.

Lemma failure_persists_witness :
  repeat_check (Spec.checker "xaaay") = Ok 0
  /\ sequential_check ascii_ucd (Spec.checker "xaaay") = 0.
Proof.
  pose proof (failure_persists ascii_ucd (Spec.checker "aaa")
                (Spec.checker "xaaay") (str "x") (str "y") eq_refl)
    as [Hrepeat Hsequential].
  split; [apply Hrepeat | apply Hsequential]; reflexivity.
Defined.
End ScoreTheorems.

(** ** Passwords of one kind of character *)

Section OneKind.
Import Py PasswordStrengthChecker.
Context (ucd : UnicodeData).

Ltac ascii_ranges :=
  unfold ascii_lower, ascii_upper, ascii_digit, is_ascii in *;
  repeat match goal with
    | H : (_ && _)%bool = true |- _ => apply andb_true_iff in H as [? ?]
    | H : (_ <=? _)%N = true |- _ => apply N.leb_le in H
    end.

Lemma lower_in_database (c : char) :
  ascii_lower c = true ->
  ISLOWER ucd c = true /\ ISUPPER ucd c = false /\ ISTITLE ucd c = false.
Proof.
  intros Hc. assert (Hascii : (c < 128)%N) by (ascii_ranges; lia).
  rewrite (ascii_ISLOWER ucd c Hascii), (ascii_ISUPPER ucd c Hascii),
    (ascii_ISTITLE ucd c Hascii).
  split; [exact Hc |]. split; [| reflexivity].
  ascii_ranges. apply andb_false_iff. right. apply N.leb_gt. lia.
Qed.

Lemma upper_in_database (c : char) :
  ascii_upper c = true ->
  ISUPPER ucd c = true /\ ISLOWER ucd c = false /\ ISTITLE ucd c = false.
Proof.
  intros Hc. assert (Hascii : (c < 128)%N) by (ascii_ranges; lia).
  rewrite (ascii_ISLOWER ucd c Hascii), (ascii_ISUPPER ucd c Hascii),
    (ascii_ISTITLE ucd c Hascii).
  split; [exact Hc |]. split; [| reflexivity].
  ascii_ranges. apply andb_false_iff. left. apply N.leb_gt. lia.
Qed.

Lemma digit_in_database (c : char) :
  ascii_digit c = true -> ISDIGIT ucd c = true.
Proof.
  intros Hc. assert (Hascii : (c < 128)%N) by (ascii_ranges; lia).
  rewrite (ascii_ISDIGIT ucd c Hascii). exact Hc.
Qed.

Lemma lower_window_caught (w : pystr) :
  w <> [] -> Forall (fun c => ascii_lower c = true) w -> Runs.caught ucd w.
Proof.
  intros Hne Hall. right. left. split.
  - destruct w as [| c w]; [contradiction |].
    apply Exists_cons_hd. apply Forall_cons in Hall as [Hc _].
    apply lower_in_database, Hc.
  - eapply Forall_impl; [exact Hall |]. intros c Hc.
    apply lower_in_database in Hc. tauto.
Qed.

Lemma upper_window_caught (w : pystr) :
  w <> [] -> Forall (fun c => ascii_upper c = true) w -> Runs.caught ucd w.
Proof.
  intros Hne Hall. right. right. split.
  - destruct w as [| c w]; [contradiction |].
    apply Exists_cons_hd. apply Forall_cons in Hall as [Hc _].
    apply upper_in_database, Hc.
  - eapply Forall_impl; [exact Hall |]. intros c Hc.
    apply upper_in_database in Hc. tauto.
Qed.

Lemma digit_window_caught (w : pystr) :
  Forall (fun c => ascii_digit c = true) w -> Runs.caught ucd w.
Proof.
  intros Hall. left. eapply Forall_impl; [exact Hall |].
  intros c Hc. apply digit_in_database, Hc.
Qed.

Lemma first_window (p : pystr) :
  3 <= len p ->
  exists a b c rest, p = a :: b :: c :: rest
                     /\ Spec.substring3 p [a; b; c].
Proof.
  unfold len. destruct p as [| a [| b [| c rest]]]; cbn [length]; try lia.
  intros _. exists a, b, c, rest. split; [reflexivity |].
  split; [reflexivity |]. exists [], rest. reflexivity.
Qed.

(** X7.  A password of three or more characters that are all ASCII
    lowercase letters, or all ASCII uppercase letters, or all ASCII
    digits, fails the sequential check, whether or not the characters
    follow one another in the alphabet. *)
Theorem one_kind_fails_sequential (self : t) :
  3 <= len (password self) ->
  Forall (fun c => ascii_lower c = true) (password self)
  \/ Forall (fun c => ascii_upper c = true) (password self)
  \/ Forall (fun c => ascii_digit c = true) (password self) ->
  sequential_check ucd self = 0.
Proof.
  intros Hlen Hkind.
  destruct (first_window _ Hlen) as (a & b & c & rest & Hp & Hsub).
  apply sequential_check_0_iff; [rewrite Hp; discriminate |].
  exists [a; b; c]. split; [exact Hsub |].
  assert (Htake : forall P : char -> Prop,
             Forall P (password self) -> Forall P [a; b; c]).
  { intros P HP. rewrite Hp in HP.
    apply Forall_cons in HP as [Ha HP]. apply Forall_cons in HP as [Hb HP].
    apply Forall_cons in HP as [Hc _]. repeat constructor; assumption. }
  destruct Hkind as [Hall | [Hall | Hall]]; apply Htake in Hall.
  - apply lower_window_caught; [discriminate | exact Hall].
  - apply upper_window_caught; [discriminate | exact Hall].
  - apply digit_window_caught. exact Hall.
Qed.

(** X8.  Three equal ASCII letters or digits in a row fail both the
    repeat check and the sequential check. *)
Theorem triple_fails_both (self : t) (before after : pystr) (c : char) :
  Runs.ascii_alnum c = true ->
  password self = before ++ [c; c; c] ++ after ->
  repeat_check self = Ok 0 /\ sequential_check ucd self = 0.
Proof.
  intros Halnum Hp. split.
  - apply repeat_check_0_iff. exists before, c, after. exact Hp.
  - apply sequential_check_0_iff.
    + rewrite Hp. destruct before; discriminate.
    + exists [c; c; c]. split.
      * split; [reflexivity |]. exists before, after. exact Hp.
      * unfold Runs.ascii_alnum in Halnum.
        apply orb_true_iff in Halnum as [Halnum | Hdigit];
          [apply orb_true_iff in Halnum as [Hlower | Hupper] |].
        -- apply lower_window_caught; [discriminate |].
           repeat constructor; exact Hlower.
        -- apply upper_window_caught; [discriminate |].
           repeat constructor; exact Hupper.
        -- apply digit_window_caught. repeat constructor; exact Hdigit.
Qed.

(** X9.  A password that is not empty and has no letter with case and
    no digit passes the sequential check. *)
Theorem no_letters_no_digits_pass (self : t) :
  password self <> [] ->
  Forall (fun c => ISLOWER ucd c = false /\ ISUPPER ucd c = false
                   /\ ISDIGIT ucd c = false) (password self) ->
  sequential_check ucd self = 1.
Proof.
  intros Hne Hplain.
  pose proof (sequential_check_0_iff ucd self Hne) as H0.
  rewrite sequential_check_windows in *.
  destruct (password self) as [| a p] eqn:Hp; [contradiction |].
  destruct (existsb _ _); [| reflexivity].
  exfalso. destruct (proj1 H0 eq_refl) as (w & Hsub & Hcaught).
  assert (Hw : Forall (fun c => ISLOWER ucd c = false
                                /\ ISUPPER ucd c = false
                                /\ ISDIGIT ucd c = false) w).
  { apply (windows_Forall _ (a :: p)); [exact Hplain |].
    apply windows_substring3, Hsub. }
  destruct Hsub as [Hlen _].
  destruct w as [| x w]; [discriminate Hlen |].
  destruct Hcaught as [Hdigits | [[Hsome _] | [Hsome _]]].
  - apply Forall_cons in Hdigits as [Hx _].
    apply Forall_cons in Hw as [(_ & _ & Hx') _]. congruence.
  - apply Exists_exists in Hsome as (y & Hy & Hlower).
    rewrite Forall_forall in Hw. destruct (Hw y Hy) as (Hy' & _ & _).
    congruence.
  - apply Exists_exists in Hsome as (y & Hy & Hupper).
    rewrite Forall_forall in Hw. destruct (Hw y Hy) as (_ & Hy' & _).
    congruence.
Qed.
End OneKind.

Section OneKindWitnesses.
Import Py PasswordStrengthChecker.

Lemma one_kind_fails_sequential_witness :
  sequential_check ascii_ucd (Spec.checker "qzx") = 0.
Proof.
  apply (one_kind_fails_sequential ascii_ucd (Spec.checker "qzx")).
  - vm_compute. discriminate.
  - left. repeat constructor.
Defined.

Lemma triple_fails_both_witness :
  repeat_check (Spec.checker "a777b") = Ok 0
  /\ sequential_check ascii_ucd (Spec.checker "a777b") = 0.
Proof.
  apply (triple_fails_both ascii_ucd (Spec.checker "a777b")
           (str "a") (str "b") 55%N); reflexivity.
Defined.

Lemma no_letters_no_digits_pass_witness :
  sequential_check ascii_ucd (Spec.checker "#$%&") = 1.
Proof.
  apply (no_letters_no_digits_pass ascii_ucd (Spec.checker "#$%&")).
  - discriminate.
  - repeat constructor.
Defined.
End OneKindWitnesses.

(** ** The handlers in closed form *)

Section ClosedForms.
Import Py AppWindow.

Lemma getitem_nat {A} (l : list A) (k : nat) :
  (k < length l)%nat ->
  exists x, l !! k = Some x /\ getitem l (Z.of_nat k) = Ok x.
Proof. intros Hk. apply getitem_in_range. unfold len. lia. Qed.

Lemma store_nat {A} (l : list A) (k : nat) (x : A) :
  store l (Z.of_nat k) x = <[k := x]> l.
Proof.
  unfold store, position.
  destruct (Z.ltb_spec (Z.of_nat k) 0); [lia |].
  rewrite Nat2Z.id. reflexivity.
Qed.

Lemma set_bar_alter (k : nat) (paint : bar -> bar) (w : widgets) :
  (k < length (CONTROLS w))%nat ->
  set_bar (Z.of_nat k) paint w
  = Ok {| CONTROLS := alter paint k (CONTROLS w); STATUS := STATUS w |}.
Proof.
  intros Hk. destruct (getitem_nat _ k Hk) as (b & Hb & Hget).
  unfold set_bar. rewrite Hget. cbn [mbind result_bind bind].
  rewrite store_nat. do 2 f_equal.
  apply list_eq. intros j. destruct (decide (j = k)) as [-> | Hne].
  - rewrite list_lookup_insert_eq by exact Hk.
    rewrite list_lookup_alter_eq, Hb. reflexivity.
  - rewrite list_lookup_insert_ne by congruence.
    rewrite list_lookup_alter_ne by congruence. reflexivity.
Qed.

Lemma criteria_satisfied_insert (k : nat) (status : Z) (w : widgets) :
  criteria_satisfied (Z.of_nat k) status w
  = Ok {| CONTROLS := CONTROLS w;
          STATUS := <[k := Shown.tick_for status]> (STATUS w) |}.
Proof.
  unfold criteria_satisfied, len.
  destruct (Z.leb_spec (Z.of_nat (length (STATUS w))) (Z.of_nat k)) as [Hge | Hlt].
  - rewrite list_insert_ge by lia. destruct w. reflexivity.
  - destruct (getitem_nat (STATUS w) k) as (x & _ & Hget); [lia |].
    rewrite Hget. cbn [mbind result_bind bind]. rewrite store_nat.
    reflexivity.
Qed.

(** Row [k]: the bar is repainted, then the box is set. *)
Lemma row_update (k : nat) (paint : bar -> bar) (status : Z) (w : widgets) :
  (k < length (CONTROLS w))%nat ->
  (set_bar (Z.of_nat k) paint w ≫= criteria_satisfied (Z.of_nat k) status)
  = Ok (Shown.updated k paint status w).
Proof.
  intros Hk. rewrite (set_bar_alter k paint w Hk).
  cbn [mbind result_bind bind]. rewrite criteria_satisfied_insert.
  unfold Shown.updated. destruct (decide _); [reflexivity | contradiction].
Qed.

Lemma updated_short (k : nat) (paint : bar -> bar) (status : Z) (w : widgets) :
  (length (CONTROLS w) <= k)%nat -> Shown.updated k paint status w = w.
Proof.
  intros Hk. unfold Shown.updated. destruct (decide _); [lia | reflexivity].
Qed.

Lemma password_length_status_updated (strength : Z) (w : widgets) :
  password_length_status strength w
  = Ok (Shown.updated 0 (four_level strength) strength w).
Proof.
  unfold password_length_status, len.
  destruct (Z.eqb_spec (Z.of_nat (length (CONTROLS w))) 0).
  - rewrite updated_short by lia. reflexivity.
  - apply (row_update 0). lia.
Qed.

Lemma character_check_status_updated (strength : Z) (w : widgets) :
  character_check_status strength w
  = Ok (Shown.updated 1 (four_level strength) strength w).
Proof.
  unfold character_check_status, len.
  destruct (Z.ltb_spec (Z.of_nat (length (CONTROLS w))) 2).
  - rewrite updated_short by lia. reflexivity.
  - apply (row_update 1). lia.
Qed.

Lemma repeat_check_status_updated (strength : Z) (w : widgets) :
  repeat_check_status strength w
  = Ok (Shown.updated 2 (two_level strength) (Shown.passed strength) w).
Proof.
  unfold repeat_check_status, len.
  destruct (Z.ltb_spec (Z.of_nat (length (CONTROLS w))) 3).
  - rewrite updated_short by lia. reflexivity.
  - apply (row_update 2). lia.
Qed.

Lemma sequential_check_status_updated (strength : Z) (w : widgets) :
  sequential_check_status strength w
  = Ok (Shown.updated 3 (two_level strength) (Shown.passed strength) w).
Proof.
  unfold sequential_check_status, len.
  destruct (Z.ltb_spec (Z.of_nat (length (CONTROLS w))) 4).
  - rewrite updated_short by lia. reflexivity.
  - apply (row_update 3). lia.
Qed.

Lemma updated_lengths (k : nat) (paint : bar -> bar) (status : Z) (w : widgets) :
  length (CONTROLS (Shown.updated k paint status w)) = length (CONTROLS w)
  /\ length (STATUS (Shown.updated k paint status w)) = length (STATUS w).
Proof.
  unfold Shown.updated. destruct (decide _); [| split; reflexivity].
  cbn [CONTROLS STATUS]. rewrite length_alter, length_insert.
  split; reflexivity.
Qed.

Lemma updated_other (k j : nat) (paint : bar -> bar) (status : Z) (w : widgets) :
  j <> k ->
  CONTROLS (Shown.updated k paint status w) !! j = CONTROLS w !! j
  /\ STATUS (Shown.updated k paint status w) !! j = STATUS w !! j.
Proof.
  intros Hne. unfold Shown.updated. destruct (decide _); [| split; reflexivity].
  cbn [CONTROLS STATUS].
  rewrite list_lookup_alter_ne by congruence.
  rewrite list_lookup_insert_ne by congruence. split; reflexivity.
Qed.

Lemma updated_same (k : nat) (paint : bar -> bar) (status : Z) (w : widgets) :
  (k < length (CONTROLS w))%nat ->
  CONTROLS (Shown.updated k paint status w) !! k = paint <$> CONTROLS w !! k
  /\ ((k < length (STATUS w))%nat ->
      STATUS (Shown.updated k paint status w) !! k
      = Some (Shown.tick_for status)).
Proof.
  intros Hk. unfold Shown.updated. destruct (decide _); [| contradiction].
  cbn [CONTROLS STATUS]. rewrite list_lookup_alter_eq.
  split; [reflexivity |]. intros Hs. apply list_lookup_insert_eq, Hs.
Qed.

(** [check_password] is the four updates in turn; it does not raise. *)
Lemma check_password_updated (ucd : UnicodeData) (data : option pystr)
    (w : widgets) :
  let checker := PasswordStrengthChecker.__init__ data in
  exists r,
    PasswordStrengthChecker.repeat_check checker = Ok r /\
    check_password ucd data w
    = Ok (Shown.updated 3
            (two_level (PasswordStrengthChecker.sequential_check ucd checker))
            (Shown.passed (PasswordStrengthChecker.sequential_check ucd checker))
            (Shown.updated 2 (two_level r) (Shown.passed r)
               (Shown.updated 1
                  (four_level (PasswordStrengthChecker.character_check checker))
                  (PasswordStrengthChecker.character_check checker)
                  (Shown.updated 0
                     (four_level (PasswordStrengthChecker.length_check checker))
                     (PasswordStrengthChecker.length_check checker) w)))).
Proof.
  intros checker.
  assert (Hsame : PasswordStrengthChecker.__init__
                    (Some (match data with
                           | None => []
                           | Some [] => []
                           | Some p => p
                           end)) = checker).
  { subst checker. destruct data as [[| a p] |]; reflexivity. }
  pose proof (repeat_check_windows checker) as Hr.
  eexists. split; [exact Hr |].
  unfold check_password. rewrite Hsame.
  rewrite password_length_status_updated. cbn [mbind result_bind bind].
  rewrite character_check_status_updated. cbn [mbind result_bind bind].
  rewrite Hr. cbn [mbind result_bind bind].
  rewrite repeat_check_status_updated. cbn [mbind result_bind bind].
  apply sequential_check_status_updated.
Qed.
End ClosedForms.

(** ** What [check_password] shows *)

Section Showing.
Import Py AppWindow.

Lemma length_check_3_iff (self : PasswordStrengthChecker.t) :
  PasswordStrengthChecker.length_check self = 3
  <-> 16 <= len (PasswordStrengthChecker.password self).
Proof.
  unfold PasswordStrengthChecker.length_check.
  repeat match goal with
    | |- context [?a <? ?b] => destruct (Z.ltb_spec a b)
    | |- context [?a <=? ?b] => destruct (Z.leb_spec a b)
    end; cbn [andb]; lia.
Qed.

Lemma character_check_3_iff (self : PasswordStrengthChecker.t) :
  PasswordStrengthChecker.character_check self = 3
  <-> Spec.class_count (PasswordStrengthChecker.password self) = 4.
Proof.
  rewrite character_check_count.
  pose proof (class_count_range (PasswordStrengthChecker.password self)).
  destruct (Z.eqb_spec
              (Spec.class_count (PasswordStrengthChecker.password self)) 0);
    lia.
Qed.

Lemma repeat_check_1_iff (self : PasswordStrengthChecker.t) :
  PasswordStrengthChecker.repeat_check self = Ok 1
  <-> PasswordStrengthChecker.password self <> []
      /\ ~ Spec.triple_repeat (PasswordStrengthChecker.password self).
Proof.
  rewrite repeat_check_windows, <- triple_repeat_windows.
  destruct (PasswordStrengthChecker.password self) as [| a p].
  - split; [discriminate | intros [H _]; contradiction].
  - destruct (existsb _ _); split; try discriminate.
    + intros [_ H]. exfalso. apply H. reflexivity.
    + intros _. split; discriminate.
    + reflexivity.
Qed.

Lemma sequential_check_1_iff (ucd : UnicodeData)
    (self : PasswordStrengthChecker.t) :
  PasswordStrengthChecker.sequential_check ucd self = 1
  <-> PasswordStrengthChecker.password self <> []
      /\ ~ exists w, Spec.substring3 (PasswordStrengthChecker.password self) w
                     /\ Runs.caught ucd w.
Proof.
  destruct (PasswordStrengthChecker.password self) as [| a p] eqn:Hp.
  - unfold PasswordStrengthChecker.sequential_check. rewrite Hp.
    split; [discriminate | intros [H _]; contradiction].
  - assert (Hne : PasswordStrengthChecker.password self <> [])
      by (rewrite Hp; discriminate).
    pose proof (sequential_check_0_iff ucd self Hne) as H0.
    rewrite Hp in H0. rewrite <- H0.
    rewrite sequential_check_windows, Hp.
    destruct (existsb _ _); split; try discriminate.
    + intros [_ H]. exfalso. apply H. reflexivity.
    + intros _. split; discriminate.
    + reflexivity.
Qed.

Lemma passed_3_iff (strength : Z) :
  strength = 0 \/ strength = 1 \/ strength = 2 ->
  Shown.passed strength = 3 <-> strength = 1.
Proof.
  unfold Shown.passed. intros [-> | [-> | ->]]; cbn; split;
    (discriminate || reflexivity).
Qed.

Lemma tick_for_value (status : Z) :
  value (Shown.tick_for status) = Some (status =? 3).
Proof. unfold Shown.tick_for. destruct (status =? 3); reflexivity. Qed.

(** The rows of the lists after [check_password]. *)
Lemma check_password_rows (ucd : UnicodeData) (data : option pystr)
    (w w' : widgets) :
  (4 <= length (CONTROLS w))%nat ->
  check_password ucd data w = Ok w' ->
  let checker := PasswordStrengthChecker.__init__ data in
  let sequential := PasswordStrengthChecker.sequential_check ucd checker in
  exists r,
    PasswordStrengthChecker.repeat_check checker = Ok r
    /\ CONTROLS w' !! 0%nat
       = four_level (PasswordStrengthChecker.length_check checker)
           <$> CONTROLS w !! 0%nat
    /\ CONTROLS w' !! 1%nat
       = four_level (PasswordStrengthChecker.character_check checker)
           <$> CONTROLS w !! 1%nat
    /\ CONTROLS w' !! 2%nat = two_level r <$> CONTROLS w !! 2%nat
    /\ CONTROLS w' !! 3%nat = two_level sequential <$> CONTROLS w !! 3%nat
    /\ ((4 <= length (STATUS w))%nat ->
        STATUS w' !! 0%nat
        = Some (Shown.tick_for
                  (PasswordStrengthChecker.length_check checker))
        /\ STATUS w' !! 1%nat
           = Some (Shown.tick_for
                     (PasswordStrengthChecker.character_check checker))
        /\ STATUS w' !! 2%nat = Some (Shown.tick_for (Shown.passed r))
        /\ STATUS w' !! 3%nat
           = Some (Shown.tick_for (Shown.passed sequential))).
Proof.
  intros Hc Hrun checker sequential.
  destruct (check_password_updated ucd data w) as (r & Hr & Hform).
  fold checker in Hr, Hform. fold sequential in Hform.
  rewrite Hform in Hrun. injection Hrun as <-.
  exists r. split; [exact Hr |].
  set (w1 := Shown.updated 0 _ _ w).
  set (w2 := Shown.updated 1 _ _ w1).
  set (w3 := Shown.updated 2 _ _ w2).
  set (w4 := Shown.updated 3 _ _ w3).
  destruct (updated_lengths 0
              (four_level (PasswordStrengthChecker.length_check checker))
              (PasswordStrengthChecker.length_check checker) w) as [Hc1 Hs1].
  destruct (updated_lengths 1
              (four_level (PasswordStrengthChecker.character_check checker))
              (PasswordStrengthChecker.character_check checker) w1)
    as [Hc2 Hs2].
  destruct (updated_lengths 2 (two_level r) (Shown.passed r) w2)
    as [Hc3 Hs3].
  fold w1 in Hc1, Hs1. fold w2 in Hc2, Hs2. fold w3 in Hc3, Hs3.
  assert (Hstep : forall k paint status v j,
             j <> k ->
             CONTROLS (Shown.updated k paint status v) !! j = CONTROLS v !! j
             /\ STATUS (Shown.updated k paint status v) !! j = STATUS v !! j).
  { intros. apply updated_other. assumption. }
  assert (Hhit : forall k paint status v,
             (k < length (CONTROLS v))%nat ->
             CONTROLS (Shown.updated k paint status v) !! k
             = paint <$> CONTROLS v !! k
             /\ ((k < length (STATUS v))%nat ->
                 STATUS (Shown.updated k paint status v) !! k
                 = Some (Shown.tick_for status))).
  { intros. apply updated_same. assumption. }
  unfold w4, w3, w2, w1.
  repeat split.
  - rewrite (proj1 (Hstep 3%nat _ _ _ 0%nat ltac:(lia))),
      (proj1 (Hstep 2%nat _ _ _ 0%nat ltac:(lia))),
      (proj1 (Hstep 1%nat _ _ _ 0%nat ltac:(lia))).
    apply Hhit. lia.
  - rewrite (proj1 (Hstep 3%nat _ _ _ 1%nat ltac:(lia))),
      (proj1 (Hstep 2%nat _ _ _ 1%nat ltac:(lia))).
    rewrite (proj1 (Hhit 1%nat _ _ w1 ltac:(lia))).
    unfold w1. rewrite (proj1 (Hstep 0%nat _ _ _ 1%nat ltac:(lia))).
    reflexivity.
  - rewrite (proj1 (Hstep 3%nat _ _ _ 2%nat ltac:(lia))).
    rewrite (proj1 (Hhit 2%nat _ _ w2 ltac:(lia))).
    unfold w2. rewrite (proj1 (Hstep 1%nat _ _ _ 2%nat ltac:(lia))).
    unfold w1. rewrite (proj1 (Hstep 0%nat _ _ _ 2%nat ltac:(lia))).
    reflexivity.
  - rewrite (proj1 (Hhit 3%nat _ _ w3 ltac:(lia))).
    unfold w3. rewrite (proj1 (Hstep 2%nat _ _ _ 3%nat ltac:(lia))).
    unfold w2. rewrite (proj1 (Hstep 1%nat _ _ _ 3%nat ltac:(lia))).
    unfold w1. rewrite (proj1 (Hstep 0%nat _ _ _ 3%nat ltac:(lia))).
    reflexivity.
  - rewrite (proj2 (Hstep 3%nat _ _ _ 0%nat ltac:(lia))),
      (proj2 (Hstep 2%nat _ _ _ 0%nat ltac:(lia))),
      (proj2 (Hstep 1%nat _ _ _ 0%nat ltac:(lia))).
    apply Hhit; lia.
  - rewrite (proj2 (Hstep 3%nat _ _ _ 1%nat ltac:(lia))),
      (proj2 (Hstep 2%nat _ _ _ 1%nat ltac:(lia))).
    apply (Hhit 1%nat _ _ w1); lia.
  - rewrite (proj2 (Hstep 3%nat _ _ _ 2%nat ltac:(lia))).
    apply (Hhit 2%nat _ _ w2); lia.
  - apply (Hhit 3%nat _ _ w3); lia.
Qed.
End Showing.

Section ScoreRanges.
Import Py PasswordStrengthChecker.

Lemma repeat_check_range (self : t) (r : Z) :
  repeat_check self = Ok r -> r = 0 \/ r = 1 \/ r = 2.
Proof.
  rewrite repeat_check_windows. intros [= <-].
  destruct (password self); [| destruct (existsb _ _)]; auto.
Qed.

Lemma sequential_check_range (ucd : UnicodeData) (self : t) :
  sequential_check ucd self = 0 \/ sequential_check ucd self = 1
  \/ sequential_check ucd self = 2.
Proof.
  rewrite sequential_check_windows.
  destruct (password self); [| destruct (existsb _ _)]; auto.
Qed.
End ScoreRanges.

Section ShowingTheorems.
Import Py AppWindow.

(** X10.  [check_password] never raises, however many rows the two
    lists hold, and it leaves the number of rows of each list as it
    was. *)
Theorem check_password_never_raises (ucd : UnicodeData)
    (data : option pystr) (w : widgets) :
  exists w',
    check_password ucd data w = Ok w'
    /\ length (CONTROLS w') = length (CONTROLS w)
    /\ length (STATUS w') = length (STATUS w).
Proof.
  destruct (check_password_updated ucd data w) as (r & _ & Hform).
  eexists. split; [exact Hform |].
  repeat match goal with
    | |- context [Shown.updated ?k ?paint ?status ?v] =>
        let Hc := fresh in let Hs := fresh in
        destruct (updated_lengths k paint status v) as [Hc Hs];
        rewrite Hc, Hs; clear Hc Hs
    end.
  split; reflexivity.
Qed.

(** X11.  [check_password] changes only the first four rows of each
    list, and never the box of a row that [CONTROLS] does not have: rows
    added by a second window are not updated. *)
Theorem check_password_frame (ucd : UnicodeData) (data : option pystr)
    (w w' : widgets) (j : nat) :
  check_password ucd data w = Ok w' ->
  (4 <= j \/ length (CONTROLS w) <= j)%nat ->
  CONTROLS w' !! j = CONTROLS w !! j /\ STATUS w' !! j = STATUS w !! j.
Proof.
  intros Hrun Hj.
  destruct (check_password_updated ucd data w) as (r & _ & Hform).
  rewrite Hform in Hrun. injection Hrun as <-.
  assert (Hkeep : forall k paint status v,
             (k < 4)%nat ->
             length (CONTROLS v) = length (CONTROLS w) ->
             CONTROLS (Shown.updated k paint status v) !! j = CONTROLS v !! j
             /\ STATUS (Shown.updated k paint status v) !! j = STATUS v !! j).
  { intros k paint status v Hk Hlen.
    destruct (decide (j = k)) as [-> | Hne]; [| apply updated_other, Hne].
    rewrite updated_short by lia. split; reflexivity. }
  assert (Hlen : forall k paint status v,
             length (CONTROLS v) = length (CONTROLS w) ->
             length (CONTROLS (Shown.updated k paint status v))
             = length (CONTROLS w)).
  { intros k paint status v Hv.
    rewrite (proj1 (updated_lengths k paint status v)). exact Hv. }
  repeat match goal with
    | |- context [Shown.updated ?k ?paint ?status ?v] =>
        let H := fresh in
        assert (H : length (CONTROLS v) = length (CONTROLS w))
          by (repeat apply Hlen; reflexivity);
        destruct (Hkeep k paint status v ltac:(lia) H) as [-> ->]; clear H
    end.
  split; reflexivity.
Qed.

Lemma check_password_frame_witness :
  exists w',
    check_password ascii_ucd (Some Shown.all_ticks)
      {| CONTROLS := CONTROLS initial ++ CONTROLS initial;
         STATUS := STATUS initial ++ STATUS initial |} = Ok w'
    /\ CONTROLS w' !! 4%nat = CONTROLS initial !! 0%nat
    /\ STATUS w' !! 4%nat = STATUS initial !! 0%nat.
Proof.
  eexists. split; [vm_compute; reflexivity |].
  apply (check_password_frame ascii_ucd (Some Shown.all_ticks)
           {| CONTROLS := CONTROLS initial ++ CONTROLS initial;
              STATUS := STATUS initial ++ STATUS initial |} _ 4).
  - vm_compute. reflexivity.
  - left. lia.
Defined.

(** X12.  With the four rows in place, [check_password] ticks the
    length box exactly for 16 characters or more, the character box
    exactly when all four classes occur, the repeat box exactly when the
    password is not empty and has no three equal characters in a row, and
    the sequential box exactly when the password is not empty and no
    window is caught; each of the four boxes is set to ticked or to
    unticked. *)
Theorem ticks_shown (ucd : UnicodeData) (data : option pystr)
    (w w' : widgets) :
  (4 <= length (CONTROLS w))%nat ->
  (4 <= length (STATUS w))%nat ->
  check_password ucd data w = Ok w' ->
  let p := PasswordStrengthChecker.password
             (PasswordStrengthChecker.__init__ data) in
  exists long diverse unrepeated unsequential : bool,
    STATUS w' !! 0%nat
    = Some {| box_opacity := if long then 1 else 0; value := Some long |}
    /\ STATUS w' !! 1%nat
       = Some {| box_opacity := if diverse then 1 else 0;
                 value := Some diverse |}
    /\ STATUS w' !! 2%nat
       = Some {| box_opacity := if unrepeated then 1 else 0;
                 value := Some unrepeated |}
    /\ STATUS w' !! 3%nat
       = Some {| box_opacity := if unsequential then 1 else 0;
                 value := Some unsequential |}
    /\ (long = true <-> 16 <= len p)
    /\ (diverse = true
        <-> Spec.present PasswordStrengthChecker.lower p
            /\ Spec.present PasswordStrengthChecker.upper p
            /\ Spec.present PasswordStrengthChecker.digits p
            /\ Spec.present PasswordStrengthChecker.special p)
    /\ (unrepeated = true <-> p <> [] /\ ~ Spec.triple_repeat p)
    /\ (unsequential = true
        <-> p <> [] /\ ~ exists v, Spec.substring3 p v /\ Runs.caught ucd v).
Proof.
  intros Hc Hs Hrun p. subst p.
  destruct (check_password_rows ucd data w w' Hc Hrun)
    as (r & Hr & _ & _ & _ & _ & Hboxes).
  destruct (Hboxes Hs) as (H0 & H1 & H2 & H3).
  set (checker := PasswordStrengthChecker.__init__ data) in *.
  assert (Htick : forall status,
             Shown.tick_for status
             = {| box_opacity := if status =? 3 then 1 else 0;
                  value := Some (status =? 3) |}).
  { intros status. unfold Shown.tick_for. destruct (status =? 3); reflexivity. }
  rewrite Htick in H0, H1, H2, H3.
  eexists _, _, _, _.
  split; [exact H0 |]. split; [exact H1 |].
  split; [exact H2 |]. split; [exact H3 |].
  rewrite !Z.eqb_eq.
  split; [apply length_check_3_iff |].
  split; [rewrite character_check_3_iff; apply class_count_4 |].
  split.
  - rewrite <- repeat_check_1_iff, Hr.
    rewrite (passed_3_iff r (repeat_check_range checker r Hr)).
    split; congruence.
  - rewrite <- sequential_check_1_iff.
    apply passed_3_iff, sequential_check_range.
Qed.

Lemma ticks_shown_witness :
  exists w',
    check_password ascii_ucd (Some Shown.all_ticks) initial = Ok w'
    /\ STATUS w' !! 0%nat
       = Some {| box_opacity := 1; value := Some true |}.
Proof.
  eexists. split; [vm_compute; reflexivity |].
  destruct (ticks_shown ascii_ucd (Some Shown.all_ticks) initial _
              ltac:(cbn; lia) ltac:(cbn; lia) eq_refl)
    as (long & diverse & unrepeated & unsequential
        & H0 & _ & _ & _ & Hlong & _).
  assert (Hyes : long = true) by (apply Hlong; vm_compute; discriminate).
  rewrite Hyes in H0. exact H0.
Defined.
End ShowingTheorems.

(** ** The bars *)

Section Bars.
Import Py AppWindow.

Lemma length_check_range (self : PasswordStrengthChecker.t) :
  0 <= PasswordStrengthChecker.length_check self <= 3.
Proof.
  unfold PasswordStrengthChecker.length_check.
  repeat match goal with
    | |- context [if ?b then _ else _] => destruct b
    end; lia.
Qed.

Lemma character_check_range (self : PasswordStrengthChecker.t) :
  0 <= PasswordStrengthChecker.character_check self <= 3.
Proof.
  rewrite character_check_count.
  pose proof (class_count_range (PasswordStrengthChecker.password self)).
  destruct (Z.eqb_spec
              (Spec.class_count (PasswordStrengthChecker.password self)) 0);
    lia.
Qed.

Lemma four_level_width (strength : Z) (b : bar) :
  0 <= strength <= 3 ->
  width (four_level strength b) = 40 + 30 * strength
  /\ opacity (four_level strength b) = 1.
Proof.
  intros Hs. unfold four_level.
  destruct (Z.eqb_spec strength 0); [cbn; lia |].
  destruct (Z.eqb_spec strength 1); [cbn; lia |].
  destruct (Z.eqb_spec strength 2); [cbn; lia |].
  destruct (Z.eqb_spec strength 3); [cbn; lia |]. lia.
Qed.

Lemma two_level_width (strength : Z) (b : bar) :
  strength = 0 \/ strength = 1 \/ strength = 2 ->
  opacity (two_level strength b) = 1
  /\ (strength = 2 ->
      width (two_level strength b) = 0
      /\ bgcolor (two_level strength b) = bgcolor b)
  /\ (strength = 0 ->
      width (two_level strength b) = 65
      /\ bgcolor (two_level strength b) = RED)
  /\ (strength = 1 ->
      width (two_level strength b) = 130
      /\ bgcolor (two_level strength b) = GREEN_900).
Proof.
  intros [-> | [-> | ->]]; cbn; repeat split; intros; try discriminate;
    try reflexivity.
Qed.

Lemma repeat_check_2_iff (self : PasswordStrengthChecker.t) :
  PasswordStrengthChecker.repeat_check self = Ok 2
  <-> PasswordStrengthChecker.password self = [].
Proof.
  rewrite repeat_check_windows.
  destruct (PasswordStrengthChecker.password self);
    [| destruct (existsb _ _)]; split; (reflexivity || discriminate).
Qed.

Lemma sequential_check_2_iff (ucd : UnicodeData)
    (self : PasswordStrengthChecker.t) :
  PasswordStrengthChecker.sequential_check ucd self = 2
  <-> PasswordStrengthChecker.password self = [].
Proof.
  rewrite sequential_check_windows.
  destruct (PasswordStrengthChecker.password self);
    [| destruct (existsb _ _)]; split; (reflexivity || discriminate).
Qed.

(** X13.  With four criteria rows in place, after [check_password] the
    four bars are opaque; the length bar and the character bar have width
    40 + 30 * score, so they are never of width 0; the repeat bar and the
    sequential bar have width 0 and keep their colour exactly for the
    empty password, and otherwise are red of width 65 on failure and dark
    green of width 130 on success. *)
Theorem bars_shown (ucd : UnicodeData) (data : option pystr)
    (w w' : widgets) (old0 old1 old2 old3 : bar) :
  CONTROLS w !! 0%nat = Some old0 ->
  CONTROLS w !! 1%nat = Some old1 ->
  CONTROLS w !! 2%nat = Some old2 ->
  CONTROLS w !! 3%nat = Some old3 ->
  check_password ucd data w = Ok w' ->
  let checker := PasswordStrengthChecker.__init__ data in
  let p := PasswordStrengthChecker.password checker in
  exists b0 b1 b2 b3,
    CONTROLS w' !! 0%nat = Some b0 /\ CONTROLS w' !! 1%nat = Some b1
    /\ CONTROLS w' !! 2%nat = Some b2 /\ CONTROLS w' !! 3%nat = Some b3
    /\ opacity b0 = 1 /\ opacity b1 = 1 /\ opacity b2 = 1 /\ opacity b3 = 1
    /\ width b0 = 40 + 30 * PasswordStrengthChecker.length_check checker
    /\ width b1 = 40 + 30 * PasswordStrengthChecker.character_check checker
    /\ (p = [] ->
        width b2 = 0 /\ bgcolor b2 = bgcolor old2
        /\ width b3 = 0 /\ bgcolor b3 = bgcolor old3)
    /\ (PasswordStrengthChecker.repeat_check checker = Ok 0 ->
        width b2 = 65 /\ bgcolor b2 = RED)
    /\ (PasswordStrengthChecker.repeat_check checker = Ok 1 ->
        width b2 = 130 /\ bgcolor b2 = GREEN_900)
    /\ (PasswordStrengthChecker.sequential_check ucd checker = 0 ->
        width b3 = 65 /\ bgcolor b3 = RED)
    /\ (PasswordStrengthChecker.sequential_check ucd checker = 1 ->
        width b3 = 130 /\ bgcolor b3 = GREEN_900).
Proof.
  intros H0 H1 H2 H3 Hrun checker p.
  assert (Hc : (4 <= length (CONTROLS w))%nat).
  { apply lookup_lt_Some in H3. lia. }
  destruct (check_password_rows ucd data w w' Hc Hrun)
    as (r & Hr & Hb0 & Hb1 & Hb2 & Hb3 & _).
  fold checker in Hr, Hb0, Hb1, Hb2, Hb3.
  rewrite H0 in Hb0. rewrite H1 in Hb1. rewrite H2 in Hb2. rewrite H3 in Hb3.
  cbn [fmap option_fmap option_map] in Hb0, Hb1, Hb2, Hb3.
  pose proof (four_level_width _ old0 (length_check_range checker))
    as [Hw0 Ho0].
  pose proof (four_level_width _ old1 (character_check_range checker))
    as [Hw1 Ho1].
  pose proof (two_level_width r old2 (repeat_check_range checker r Hr))
    as (Ho2 & He2 & Hf2 & Hp2).
  pose proof (two_level_width _ old3 (sequential_check_range ucd checker))
    as (Ho3 & He3 & Hf3 & Hp3).
  eexists _, _, _, _.
  split; [exact Hb0 |]. split; [exact Hb1 |].
  split; [exact Hb2 |]. split; [exact Hb3 |].
  split; [exact Ho0 |]. split; [exact Ho1 |].
  split; [exact Ho2 |]. split; [exact Ho3 |].
  split; [exact Hw0 |]. split; [exact Hw1 |].
  split.
  { intros Hempty.
    assert (Hr2 : r = 2).
    { apply repeat_check_2_iff in Hempty. rewrite Hr in Hempty.
      congruence. }
    apply (sequential_check_2_iff ucd) in Hempty.
    destruct (He2 Hr2) as [? ?]. destruct (He3 Hempty) as [? ?].
    repeat split; assumption. }
  split; [intros Hfail; apply Hf2; congruence |].
  split; [intros Hpass; apply Hp2; congruence |].
  split; [exact Hf3 | exact Hp3].
Qed.

Lemma bars_shown_witness :
  exists w' b0,
    check_password ascii_ucd (Some (str "abc")) initial = Ok w'
    /\ CONTROLS w' !! 0%nat = Some b0 /\ width b0 = 40.
Proof.
  eexists. 
  destruct (bars_shown ascii_ucd (Some (str "abc")) initial _
              _ _ _ _ eq_refl eq_refl eq_refl eq_refl
              ltac:(vm_compute; reflexivity))
    as (b0 & b1 & b2 & b3 & H0 & _ & _ & _ & _ & _ & _ & _ & Hw0 & _).
  exists b0. split; [reflexivity |]. split; [exact H0 | exact Hw0].
Defined.
End Bars.

(** ** The rows collected while a window is built *)

Section Rows.
Import Py.

Lemma mapM_snoc {A B} (f : A -> option B) (l : list A) (k : list B)
    (x : A) (y : B) :
  mapM f l = Some k -> f x = Some y -> mapM f (l ++ [x]) = Some (k ++ [y]).
Proof.
  intros Hl Hx. apply mapM_Some. apply mapM_Some in Hl.
  apply Forall2_app; [exact Hl |]. repeat constructor. exact Hx.
Qed.

Lemma view_inv (g : Registry.lists) (w : AppWindow.widgets) :
  Registry.view g = Some w
  <-> mapM Registry.bar_of (Registry.CONTROLS g) = Some (AppWindow.CONTROLS w)
      /\ mapM Registry.box_of (Registry.STATUS g) = Some (AppWindow.STATUS w).
Proof.
  unfold Registry.view.
  destruct (mapM Registry.bar_of (Registry.CONTROLS g)) as [bars |];
    cbn [mbind option_bind]; [| split; [discriminate | intros [H _]; discriminate H]].
  destruct (mapM Registry.box_of (Registry.STATUS g)) as [boxes |];
    cbn [mbind option_bind]; [| split; [discriminate | intros [_ H]; discriminate H]].
  destruct w as [c s]. cbn [AppWindow.CONTROLS AppWindow.STATUS].
  split; [intros [= -> ->]; split; reflexivity | intros [[= ->] [= ->]]; reflexivity].
Qed.

(** A criteria row registered with [control=0] goes to [CONTROLS]. *)
Lemma criteria_registered (g : Registry.lists) (w : AppWindow.widgets) :
  Registry.view g = Some w ->
  Registry.view
    (Registry.check_criteria_display {[ "control"%string := 0 ]} g).2
  = Some {| AppWindow.CONTROLS :=
              AppWindow.CONTROLS w
              ++ [{| AppWindow.bgcolor := AppWindow.TRANSPARENT;
                     AppWindow.width := 0;
                     AppWindow.opacity := 0 |}];
            AppWindow.STATUS := AppWindow.STATUS w |}.
Proof.
  intros Hview. apply view_inv in Hview as [Hbars Hboxes].
  apply view_inv.
  unfold Registry.check_criteria_display, Registry.store_control.
  rewrite lookup_singleton_eq. cbn [default Z.eqb snd Registry.CONTROLS
    Registry.STATUS AppWindow.CONTROLS AppWindow.STATUS].
  split; [| exact Hboxes].
  apply mapM_snoc; [exact Hbars | reflexivity].
Qed.

(** A status row registered with [control=1] goes to [STATUS]. *)
Lemma status_registered (g : Registry.lists) (w : AppWindow.widgets) :
  Registry.view g = Some w ->
  Registry.view
    (Registry.check_status_display {[ "control"%string := 1 ]} g).2
  = Some {| AppWindow.CONTROLS := AppWindow.CONTROLS w;
            AppWindow.STATUS :=
              AppWindow.STATUS w
              ++ [{| AppWindow.box_opacity := 0;
                     AppWindow.value := None |}] |}.
Proof.
  intros Hview. apply view_inv in Hview as [Hbars Hboxes].
  apply view_inv.
  unfold Registry.check_status_display, Registry.store_control.
  rewrite lookup_singleton_eq. cbn [default Z.eqb snd Registry.CONTROLS
    Registry.STATUS AppWindow.CONTROLS AppWindow.STATUS].
  split; [exact Hbars |].
  apply mapM_snoc; [exact Hboxes | reflexivity].
Qed.

(** X14.  Building a window keeps the two lists sorted by kind: if
    [CONTROLS] holds only criteria rows and [STATUS] only status rows,
    then after [password_strength_display] they still do, with four fresh
    rows appended to each and the earlier rows unchanged.  Started from
    the empty lists, this gives four bars of width 0 and four hidden
    boxes. *)
Theorem rows_registered (g : Registry.lists) (w : AppWindow.widgets) :
  Registry.view g = Some w ->
  Registry.view (Registry.password_strength_display g)
  = Some {| AppWindow.CONTROLS :=
              AppWindow.CONTROLS w ++ AppWindow.CONTROLS AppWindow.initial;
            AppWindow.STATUS :=
              AppWindow.STATUS w ++ AppWindow.STATUS AppWindow.initial |}.
Proof.
  intros Hview. unfold Registry.password_strength_display. cbv zeta.
  do 4 (apply criteria_registered in Hview;
        apply status_registered in Hview;
        cbn [AppWindow.CONTROLS AppWindow.STATUS] in Hview).
  rewrite Hview. cbn [AppWindow.initial AppWindow.CONTROLS AppWindow.STATUS
    replicate]. rewrite <- !app_assoc. reflexivity.
Qed.

Lemma rows_registered_witness :
  Registry.view (Registry.password_strength_display Registry.empty)
  = Some AppWindow.initial.
Proof.
  apply (rows_registered Registry.empty
           {| AppWindow.CONTROLS := []; AppWindow.STATUS := [] |}).
  reflexivity.
Defined.
End Rows.

(** ** Show/hide, copy, and the colour shim *)

Section ViewHandlers.
Import Py Handlers.



(** X16.  With a field and a page, [copy_password] always ends with the
    snack bar open on the text "Password copied to clipboard", also when
    the page has no clipboard method or the call raised and nothing was
    copied; it changes neither the field nor [show_password].  Without a
    field or a page it does nothing. *)
Theorem copy_password_confirms (has_400 has_green : bool) (self : window) :
  match password_field self, the_page self with
  | Some field, Some p =>
      exists p' bar,
        the_page (copy_password has_400 has_green self) = Some p'
        /\ the_snack_bar p' = Some bar
        /\ open bar = true
        /\ content bar = Some (Text message)
        /\ password_field (copy_password has_400 has_green self)
           = Some field
        /\ show_password (copy_password has_400 has_green self)
           = show_password self
        /\ (set_clipboard p = None -> copy_to_clipboard p = None ->
            clipboard p' = clipboard p)
        /\ (forall set_clip, set_clipboard p = Some set_clip ->
            set_clip (match value field with
                      | Some (c :: text) => c :: text
                      | _ => []
                      end) (clipboard p) = None ->
            clipboard p' = clipboard p)
  | _, _ => copy_password has_400 has_green self = self
  end.
Proof.
  unfold copy_password.
  destruct (password_field self) as [field |] eqn:Hfield; [| reflexivity].
  destruct (the_page self) as [p |] eqn:Hpage; [| reflexivity].
  eexists _, _. cbn [the_page the_snack_bar password_field show_password
    clipboard].
  split; [reflexivity |]. split; [reflexivity |].
  split; [destruct (the_snack_bar p) as [[[[] |] ? ?] |]; reflexivity |].
  split; [destruct (the_snack_bar p) as [[[[] |] ? ?] |]; reflexivity |].
  split; [reflexivity |]. split; [reflexivity |]. split.
  - intros Hset Hcopy. unfold try_copy. rewrite Hset, Hcopy. reflexivity.
  - intros set_clip Hset Hraise. unfold try_copy. rewrite Hset.
    destruct (value field) as [[| c text] |]; rewrite Hraise; reflexivity.
Qed.
End ViewHandlers.

Section ShimFacts.
Import Shim.
Context {V : Type}.

(** X17.  [color_with_opacity] never raises [TypeError]: it returns the
    plain colour when [with_opacity] is missing or rejects both orders of
    the arguments, and otherwise the outcome of the first call that did
    not raise [TypeError], trying (opacity, colour) before (colour,
    opacity). *)
Theorem color_with_opacity_no_type_error
    (fn : option (V -> V -> outcome V)) (color opacity : V) :
  color_with_opacity fn color opacity <> RaiseTypeError
  /\ (fn = None -> color_with_opacity fn color opacity = Return color)
  /\ (forall f, fn = Some f ->
      (f opacity color <> RaiseTypeError ->
       color_with_opacity fn color opacity = f opacity color)
      /\ (f opacity color = RaiseTypeError ->
          f color opacity <> RaiseTypeError ->
          color_with_opacity fn color opacity = f color opacity)
      /\ (f opacity color = RaiseTypeError ->
          f color opacity = RaiseTypeError ->
          color_with_opacity fn color opacity = Return color)).
Proof.
  unfold color_with_opacity. split; [| split].
  - destruct fn as [f |]; [| discriminate].
    destruct (f opacity color); try discriminate.
    destruct (f color opacity); discriminate.
  - intros ->. reflexivity.
  - intros f ->. repeat split.
    + destruct (f opacity color); congruence.
    + intros -> Hsecond. destruct (f color opacity); congruence.
    + intros -> ->. reflexivity.
Qed.
End ShimFacts.

Section ViewWitnesses.
Import Py Handlers.

Lemma copy_password_confirms_witness :
  let start :=
    {| show_password := false;
       password_field := Some {| masked := true; value := Some (str "s3cret") |};
       the_page := Some {| set_clipboard := Some (fun _ _ => None);
                           copy_to_clipboard := Some (fun text _ => Some text);
                           the_snack_bar := None;
                           clipboard := str "before" |} |} in
  exists p' bar,
    the_page (copy_password true true start) = Some p'
    /\ the_snack_bar p' = Some bar
    /\ open bar = true
    /\ clipboard p' = str "before".
Proof.
  intros start.
  pose proof (copy_password_confirms true true start) as H.
  cbn [start password_field the_page] in H.
  destruct H as (p' & bar & Hpage & Hbar & Hopen & _ & _ & _ & _ & Hraise).
  exists p', bar. split; [exact Hpage |]. split; [exact Hbar |].
  split; [exact Hopen |].
  apply (Hraise (fun _ _ => None)); reflexivity.
Defined.

Lemma color_with_opacity_no_type_error_witness :
  Shim.color_with_opacity
    (Some (fun a b : nat =>
             if Nat.ltb a b then Shim.RaiseTypeError else Shim.Return (a + b)%nat))
    7%nat 3%nat
  = Shim.Return 10%nat.
Proof.
  destruct (color_with_opacity_no_type_error
              (Some (fun a b : nat =>
                       if Nat.ltb a b then Shim.RaiseTypeError
                       else Shim.Return (a + b)%nat))
              7%nat 3%nat) as (_ & _ & H).
  destruct (H _ eq_refl) as (_ & Hsecond & _).
  apply Hsecond; [reflexivity | discriminate].
Defined.
End ViewWitnesses.

(** ** Running [check_password] again *)

Section Again.
Import Py AppWindow.

Lemma four_level_again (strength : Z) (b : bar) :
  four_level strength (four_level strength b) = four_level strength b.
Proof.
  unfold four_level.
  repeat match goal with
    | |- context [if ?c then _ else _] => destruct c
    end; reflexivity.
Qed.

Lemma two_level_again (strength : Z) (b : bar) :
  two_level strength (two_level strength b) = two_level strength b.
Proof.
  unfold two_level.
  repeat match goal with
    | |- context [if ?c then _ else _] => destruct c
    end; reflexivity.
Qed.

Lemma widgets_eq (v w : widgets) :
  CONTROLS v = CONTROLS w -> STATUS v = STATUS w -> v = w.
Proof. destruct v, w. cbn. intros -> ->. reflexivity. Qed.

(** Updating a row a second time with the same paint, when painting
    twice is painting once. *)
Lemma updated_again (k : nat) (paint : bar -> bar) (status : Z) (w : widgets) :
  (forall b, paint (paint b) = paint b) ->
  Shown.updated k paint status (Shown.updated k paint status w)
  = Shown.updated k paint status w.
Proof.
  intros Hpaint.
  destruct (updated_lengths k paint status w) as [Hc _].
  unfold Shown.updated at 1. rewrite Hc.
  destruct (decide (k < length (CONTROLS w))%nat) as [Hk | Hk];
    [| reflexivity].
  unfold Shown.updated. destruct (decide _); [| contradiction].
  cbn [CONTROLS STATUS]. apply widgets_eq; cbn [CONTROLS STATUS].
  - apply list_eq. intros j. destruct (decide (j = k)) as [-> | Hne].
    + rewrite !list_lookup_alter_eq.
      destruct (CONTROLS w !! k); cbn; [rewrite Hpaint |]; reflexivity.
    + rewrite !list_lookup_alter_ne by congruence. reflexivity.
  - apply list_insert_insert_eq.
Qed.

(** Updates of different rows can be made in either order. *)
Lemma updated_swap (j k : nat) (paint1 paint2 : bar -> bar)
    (status1 status2 : Z) (w : widgets) :
  j <> k ->
  Shown.updated j paint1 status1 (Shown.updated k paint2 status2 w)
  = Shown.updated k paint2 status2 (Shown.updated j paint1 status1 w).
Proof.
  intros Hne.
  destruct (updated_lengths k paint2 status2 w) as [Hck _].
  destruct (updated_lengths j paint1 status1 w) as [Hcj _].
  unfold Shown.updated at 1 3. rewrite Hck, Hcj.
  unfold Shown.updated.
  destruct (decide (j < length (CONTROLS w))%nat),
    (decide (k < length (CONTROLS w))%nat);
    cbn [CONTROLS STATUS]; try reflexivity.
  apply widgets_eq; cbn [CONTROLS STATUS].
  - apply list_eq. intros i.
    destruct (decide (i = j)) as [Hij | Hij],
      (decide (i = k)) as [Hik | Hik]; [congruence | subst i .. | ].
    + rewrite list_lookup_alter_eq, list_lookup_alter_ne by congruence.
      rewrite list_lookup_alter_ne by congruence.
      rewrite list_lookup_alter_eq. reflexivity.
    + rewrite list_lookup_alter_ne, list_lookup_alter_eq by congruence.
      rewrite list_lookup_alter_eq, list_lookup_alter_ne by congruence.
      reflexivity.
    + rewrite !list_lookup_alter_ne by congruence. reflexivity.
  - apply list_insert_insert_ne. congruence.
Qed.
End Again.

Section AgainTheorem.
Import Py AppWindow.

(** X18.  Running [check_password] a second time on the same text
    changes nothing: the state it leaves is a fixed point, whatever the
    lists held before. *)
Theorem check_password_again (ucd : UnicodeData) (data : option pystr)
    (w w' : widgets) :
  check_password ucd data w = Ok w' ->
  check_password ucd data w' = Ok w'.
Proof.
  intros Hrun.
  destruct (check_password_updated ucd data w) as (r & Hr & Hform).
  destruct (check_password_updated ucd data w') as (r' & Hr' & Hform').
  rewrite Hr in Hr'. injection Hr' as <-.
  rewrite Hform in Hrun. injection Hrun as Hw'.
  rewrite Hform'. f_equal. rewrite <- Hw'.
  rewrite (updated_swap 0 3), (updated_swap 0 2), (updated_swap 0 1)
    by discriminate.
  rewrite (updated_again 0) by apply four_level_again.
  rewrite (updated_swap 1 3), (updated_swap 1 2) by discriminate.
  rewrite (updated_again 1) by apply four_level_again.
  rewrite (updated_swap 2 3) by discriminate.
  rewrite (updated_again 2) by apply two_level_again.
  rewrite (updated_again 3) by apply two_level_again.
  reflexivity.
Qed.

Lemma check_password_again_witness :
  exists w',
    check_password ascii_ucd (Some (str "aaa")) initial = Ok w'
    /\ check_password ascii_ucd (Some (str "aaa")) w' = Ok w'.
Proof.
  eexists. split; [vm_compute; reflexivity |].
  apply (check_password_again ascii_ucd (Some (str "aaa")) initial).
  vm_compute. reflexivity.
Defined.
End AgainTheorem.
